(** * BrittBot: signal generation, trade decisions and the store

    A shallow embedding of the Python sources

      - [SafeDataBaseWrapper.py]  (imported as [db_manager])
      - [AIMathCalculationScript.py]  (the Signal Engine, [generate_signals])
      - [StockTradingLoopLogic.py], [CryptoTradingLoopLogic.py]
        (the two Decision Engines)
      - [PricePollingScript.py]  (the Feeder)
      - [FlaskDashboardEntryPoint.py]  (the dashboard view)

    Modelling conventions.

      - A finite Python / NumPy float is an exact rational ([Q]); rounding
        error of binary floating point is not modelled.  The non-finite
        values that NumPy arithmetic produces instead of raising (division
        by zero gives [inf] or [nan]) are explicit, see [float64].
      - The SQLite file is a record of three tables, each a list of rows in
        insertion order together with its AUTOINCREMENT counter.
      - Everything a function reads from its environment is a field of
        [world]: the database, the wall clock, the storage faults that the
        next connections will hit, the Feeder's global [MOCK_PRICES] and
        the lines printed so far.
      - Python exceptions are the [Raise] outcome of the monad [M];
        [try ... except Exception] is [try_except].
      - A pandas frame carries its column labels, because the code reads
        its columns by label; see [pd]. *)

From Stdlib Require Import ZArith QArith Qround Qminmax List String Bool Lia Lqa.
From Stdlib Require Import Permutation Sorted.
Import ListNotations.

Open Scope Q_scope.

(** ** Numbers *)

Module Py.

(** [np.float64]: a finite value, or one of the IEEE specials. *)
Inductive float64 : Type :=
| Finite (q : Q)
| PosInf
| NegInf
| NaN.

(** Nearest integer, ties to even (what [round] and [np.round] use). *)
Definition rint (q : Q) : Z :=
  let f := Qfloor q in
  match Qcompare (q - inject_Z f) 0.5 with
  | Lt => f
  | Gt => (f + 1)%Z
  | Eq => if Z.even f then f else (f + 1)%Z
  end.

(** [round(x, ndigits)] on a finite float, taken on the exact decimal
    value.  Python rounds the binary double: where the decimal value lies
    exactly half way between two neighbours (2.675 to two places) the
    double lies a little to one side and Python may return the other
    neighbour.  Either way the result is a neighbour of [x] on the grid
    of [ndigits] decimals, at most half a grid step away. *)
Definition round_q (x : Q) (ndigits : nat) : Q :=
  let scale := inject_Z (10 ^ Z.of_nat ndigits) in
  Qred (inject_Z (rint (x * scale)) / scale).

(** [round(x, ndigits)] on an [np.float64]: specials are returned as is. *)
Definition round (x : float64) (ndigits : nat) : float64 :=
  match x with
  | Finite q => Finite (round_q q ndigits)
  | _ => x
  end.

(** [x - y] and [x + y] in IEEE arithmetic. *)
Definition fsub (x y : float64) : float64 :=
  match x, y with
  | NaN, _ | _, NaN => NaN
  | Finite a, Finite b => Finite (a - b)
  | PosInf, PosInf | NegInf, NegInf => NaN
  | PosInf, _ | _, NegInf => PosInf
  | NegInf, _ | _, PosInf => NegInf
  end.

Definition fadd (x y : float64) : float64 :=
  match x, y with
  | NaN, _ | _, NaN => NaN
  | Finite a, Finite b => Finite (a + b)
  | PosInf, NegInf | NegInf, PosInf => NaN
  | PosInf, _ | _, PosInf => PosInf
  | NegInf, _ | _, NegInf => NegInf
  end.

(** Sign of a rational as a comparison with zero. *)
Definition sgn (q : Q) : comparison := Qcompare q 0.

(** [x / y] on [np.float64] operands.  NumPy does not raise on a zero
    divisor: it warns and returns [inf], [-inf] or [nan]. *)
Definition fdiv (x y : float64) : float64 :=
  match x, y with
  | NaN, _ | _, NaN => NaN
  | Finite a, Finite b =>
      match sgn b with
      | Eq => match sgn a with Eq => NaN | Gt => PosInf | Lt => NegInf end
      | _ => Finite (a / b)
      end
  | Finite _, _ => Finite 0
  | PosInf, Finite b => match sgn b with Lt => NegInf | _ => PosInf end
  | NegInf, Finite b => match sgn b with Lt => PosInf | _ => NegInf end
  | _, _ => NaN
  end.

(** [np.clip(a, a_min, a_max)], that is [minimum(a_max, maximum(a, a_min))]. *)
Definition clip (a : float64) (a_min a_max : Q) : float64 :=
  match a with
  | NaN => NaN
  | PosInf => Finite a_max
  | NegInf => Finite (Qmin a_max a_min)
  | Finite q => Finite (Qmin a_max (Qmax q a_min))
  end.

(** [pd.isna] on a scalar. *)
Definition isna (x : float64) : bool :=
  match x with NaN => true | _ => false end.

(** [x >= t] and [x <= t] for a float [x] and a finite threshold [t];
    every comparison with [nan] is false. *)
Definition ge (x : float64) (t : Q) : bool :=
  match x with
  | Finite q => Qle_bool t q
  | PosInf => true
  | _ => false
  end.

Definition le (x : float64) (t : Q) : bool :=
  match x with
  | Finite q => Qle_bool q t
  | NegInf => true
  | _ => false
  end.

(** Python exceptions that can occur in the modelled code. *)
Inductive exn : Type :=
| OperationalError   (* sqlite3.Error: the storage layer failed *)
| IntegrityError     (* sqlite3.Error: a constraint was violated *)
| IndexError
| KeyError.

(** Is the exception an instance of [sqlite3.Error]? *)
Definition is_sqlite3_Error (e : exn) : bool :=
  match e with
  | OperationalError | IntegrityError => true
  | _ => false
  end.

Inductive result (A : Type) : Type :=
| Return (a : A)
| Raise (e : exn).
Arguments Return {A} a.
Arguments Raise {A} e.

End Py.
Import Py.

(** ** The world: database, clock, faults, globals and standard output *)

Inductive action : Type := BUY | SELL | HOLD.

(** Table [price_data]; [UNIQUE(asset, timestamp)], [price REAL NOT NULL]. *)
Record price_row : Type := mk_price_row
  { p_id : Z; p_asset : string; p_timestamp : Z; p_price : Q }.

(** Table [signals]; [signal_value REAL NOT NULL], the two averages are
    nullable ([None] is SQL NULL). *)
Record signal_row : Type := mk_signal_row
  { s_id : Z; s_asset : string; s_timestamp : Z;
    s_signal_value : float64;
    s_sma_20 : option float64; s_sma_50 : option float64 }.

(** Table [trade_history]. *)
Record trade_row : Type := mk_trade_row
  { t_id : Z; t_asset : string; t_timestamp : Z;
    t_action : action; t_quantity : Q; t_price : Q }.

(** The three tables with their AUTOINCREMENT counters (the largest id
    handed out so far). *)
Record database : Type := mk_database
  { price_data : list price_row;      price_data_seq : Z;
    signals : list signal_row;        signals_seq : Z;
    trade_history : list trade_row;   trade_history_seq : Z }.

(** What the programs print, one constructor per message. *)
Inductive line : Type :=
| Database_Error (e : exn)
| Database_initialized
| Error_inserting_price_data (e : exn)
| Error_inserting_signal (e : exn)
| Error_inserting_trade_action (e : exn)
| SKIP_Not_enough_data (asset : string) (need found : nat)
| SIGNAL (asset : string) (signal : float64) (sma20 : option float64)
| Brain_Update_Running
| Engine_Running (asset : string) (at_time : Z)
| HOLD_No_price_data (asset : string)
| ERROR_Could_not_fetch_signal (e : exn)
| HOLD_neutral (signal : float64) (lo hi : Q)
| TRADE_EXECUTED (a : action) (quantity : Q) (asset : string)
                 (price : Q) (signal : float64)
| Data_Feeder_Running (at_time : Z)
| SUCCESS (asset : string) (price : Q)
| ERROR_Failed_to_fetch_data (asset : string) (e : exn).

(** [faults] lists, for the connections still to be opened, whether the
    storage layer fails on that connection ([true]); past its end no
    connection fails.  [clock] is what [int(time.time())] returns. *)
Record world : Type := mk_world
  { db : database;
    clock : Z;
    faults : list bool;
    MOCK_PRICES : list (string * Q);
    stdout : list line }.

Definition set_db (d : database) (w : world) : world :=
  mk_world d (clock w) (faults w) (MOCK_PRICES w) (stdout w).
Definition set_faults (f : list bool) (w : world) : world :=
  mk_world (db w) (clock w) f (MOCK_PRICES w) (stdout w).
Definition set_MOCK_PRICES (m : list (string * Q)) (w : world) : world :=
  mk_world (db w) (clock w) (faults w) m (stdout w).
Definition set_stdout (o : list line) (w : world) : world :=
  mk_world (db w) (clock w) (faults w) (MOCK_PRICES w) o.

(** Computations that may raise and that read and write the world.  An
    exception keeps the world as it was when it was raised. *)
Definition M (A : Type) : Type := world -> result A * world.

Definition ret {A} (a : A) : M A := fun w => (Return a, w).
Definition raise {A} (e : exn) : M A := fun w => (Raise e, w).
Definition bind {A B} (m : M A) (k : A -> M B) : M B :=
  fun w =>
    match m w with
    | (Return a, w') => k a w'
    | (Raise e, w') => (Raise e, w')
    end.
Definition lift {A} (r : result A) : M A := fun w => (r, w).

(** [try: m  except Exception as e: handler(e)]. *)
Definition try_except {A} (m : M A) (handler : exn -> M A) : M A :=
  fun w =>
    match m w with
    | (Return a, w') => (Return a, w')
    | (Raise e, w') => handler e w'
    end.

Definition print (l : line) : M unit :=
  fun w => (Return tt, set_stdout (stdout w ++ [l]) w).

(** [int(time.time())]. *)
Definition time_time : M Z := fun w => (Return (clock w), w).

Declare Scope py_scope.
Delimit Scope py_scope with py.
Notation "x <- m ;; k" := (bind m (fun x => k))
  (at level 61, m at next level, right associativity) : py_scope.
Notation "m ;;; k" := (bind m (fun _ => k))
  (at level 61, right associativity) : py_scope.
Open Scope py_scope.

(** [for x in xs: body(x)]. *)
Fixpoint for_each {A} (xs : list A) (body : A -> M unit) : M unit :=
  match xs with
  | [] => ret tt
  | x :: rest => body x ;;; for_each rest body
  end.

(** ** Sorting, as used by [ORDER BY] and [sort_values] *)

Section Sorting.
Context {A : Type} (leb : A -> A -> bool).

Fixpoint insert_sorted (x : A) (l : list A) : list A :=
  match l with
  | [] => [x]
  | y :: l' => if leb x y then x :: l else y :: insert_sorted x l'
  end.

Definition sort (l : list A) : list A := fold_right insert_sorted [] l.
End Sorting.

(** [xs[-1]] / [df.iloc[-1]]: the last element, [IndexError] when empty. *)
Definition iloc_last {A} (xs : list A) : result A :=
  match rev xs with
  | [] => Raise IndexError
  | x :: _ => Return x
  end.

(** ** [db_manager] (SafeDataBaseWrapper.py) *)

Module db_manager.

(** The database that [initialize_database] creates in a fresh file. *)
Definition empty_database : database :=
  mk_database [] 0 [] 0 [] 0.

(** [with get_db_connection() as conn: body].  The body is one SQL
    statement: it maps the database to an outcome and a new database.
    When the storage layer fails on this connection (connect, execute or
    commit raises [sqlite3.Error]) or the statement itself raises, the
    handler prints, rolls back and re-raises; otherwise the change is
    committed. *)
Definition get_db_connection {A} (body : database -> result A * database)
  : M A :=
  fun w =>
    let w1 := set_faults (tl (faults w)) w in
    match faults w with
    | true :: _ =>
        (Raise OperationalError,
         set_stdout (stdout w1 ++ [Database_Error OperationalError]) w1)
    | _ =>
        match body (db w) with
        | (Return a, d') => (Return a, set_db d' w1)
        | (Raise e, _) =>
            if is_sqlite3_Error e
            then (Raise e, set_stdout (stdout w1 ++ [Database_Error e]) w1)
            else (Raise e, w1)
        end
    end.

(** [CREATE TABLE IF NOT EXISTS ...] three times: existing tables are
    kept as they are.  The message is printed once the three statements
    have run; a storage fault is taken to strike before that, at connect
    or execute. *)
Definition initialize_database : M unit :=
  get_db_connection (fun d => (Return tt, d)) ;;;
  print Database_initialized.

(** [SELECT * FROM price_data WHERE asset = ? ORDER BY timestamp DESC LIMIT ?] *)
Definition select_price_data (asset : string) (limit : nat) (d : database)
  : list price_row :=
  firstn limit
    (sort (fun a b => (p_timestamp b <=? p_timestamp a)%Z)
       (filter (fun r => String.eqb (p_asset r) asset) (price_data d))).

Definition fetch_latest_data (asset : string) (limit : nat)
  : M (list price_row) :=
  get_db_connection (fun d => (Return (select_price_data asset limit d), d)).

(** [INSERT OR REPLACE INTO price_data (asset, timestamp, price)]: a row
    with the same [(asset, timestamp)] is deleted, then the new row is
    added under a fresh id.  Timestamps are taken to fit SQLite's signed
    64-bit INTEGER, as every [int(time.time())] does; for a larger Python
    integer the binding raises [OverflowError] and nothing is stored.
    Statements below that take a timestamp from their caller say
    [in_int64]. *)
Definition same_key (asset : string) (timestamp : Z) (r : price_row) : bool :=
  String.eqb (p_asset r) asset && (p_timestamp r =? timestamp)%Z.

Definition insert_or_replace_price_data
  (asset : string) (timestamp : Z) (price : Q) (d : database) : database :=
  let id := (price_data_seq d + 1)%Z in
  mk_database
    (filter (fun r => negb (same_key asset timestamp r)) (price_data d)
       ++ [mk_price_row id asset timestamp price])
    id
    (signals d) (signals_seq d)
    (trade_history d) (trade_history_seq d).

Definition insert_price_data (asset : string) (timestamp : Z) (price : Q)
  : M unit :=
  try_except
    (get_db_connection
       (fun d => (Return tt, insert_or_replace_price_data asset timestamp price d)))
    (fun e => print (Error_inserting_price_data e)).

(** A float bound to a statement parameter: SQLite stores [nan] as NULL. *)
Definition bind_double (x : float64) : option float64 :=
  if isna x then None else Some x.

Definition bind_nullable (x : option float64) : option float64 :=
  match x with
  | None => None
  | Some v => bind_double v
  end.

(** [INSERT INTO signals (asset, timestamp, signal_value, sma_20, sma_50)];
    a NULL [signal_value] violates NOT NULL. *)
Definition insert_into_signals
  (asset : string) (timestamp : Z) (signal_value : float64)
  (sma_20 sma_50 : option float64) (d : database) : result unit * database :=
  match bind_double signal_value with
  | None => (Raise IntegrityError, d)
  | Some v =>
      let id := (signals_seq d + 1)%Z in
      (Return tt,
       mk_database
         (price_data d) (price_data_seq d)
         (signals d ++ [mk_signal_row id asset timestamp v
                          (bind_nullable sma_20) (bind_nullable sma_50)])
         id
         (trade_history d) (trade_history_seq d))
  end.

Definition insert_signal
  (asset : string) (timestamp : Z) (signal_value : float64)
  (sma_20 sma_50 : option float64) : M unit :=
  try_except
    (get_db_connection
       (insert_into_signals asset timestamp signal_value sma_20 sma_50))
    (fun e => print (Error_inserting_signal e)).

(** [INSERT INTO trade_history (asset, timestamp, action, quantity, price)] *)
Definition insert_into_trade_history
  (asset : string) (timestamp : Z) (a : action) (quantity price : Q)
  (d : database) : database :=
  let id := (trade_history_seq d + 1)%Z in
  mk_database
    (price_data d) (price_data_seq d)
    (signals d) (signals_seq d)
    (trade_history d ++ [mk_trade_row id asset timestamp a quantity price])
    id.

Definition insert_trade_action
  (asset : string) (timestamp : Z) (a : action) (quantity price : Q)
  : M unit :=
  try_except
    (get_db_connection
       (fun d => (Return tt,
                  insert_into_trade_history asset timestamp a quantity price d)))
    (fun e => print (Error_inserting_trade_action e)).

(** [SELECT signal_value FROM signals WHERE asset = ?
     ORDER BY timestamp DESC LIMIT 1], then [fetchone()].  Among rows with
    the same timestamp SQLite may return any; the model takes the one
    inserted first. *)
Definition select_latest_signal (asset : string) (d : database)
  : option float64 :=
  hd_error
    (map s_signal_value
       (sort (fun a b => (s_timestamp b <=? s_timestamp a)%Z)
          (filter (fun r => String.eqb (s_asset r) asset) (signals d)))).

(** One trade as the dashboard shows it ([dict(t)] of the selected
    columns) and the summary entry of one asset. *)
Record trade_dict : Type := mk_trade_dict
  { td_timestamp : Z; td_action : action; td_quantity : Q; td_price : Q }.

Record asset_summary : Type := mk_asset_summary
  { sum_price : Q; sum_timestamp : Z;
    sum_signal : float64;
    sum_sma_20 : option float64; sum_sma_50 : option float64;
    sum_trades : list trade_dict }.

(** [SELECT price, timestamp FROM price_data WHERE asset = ?
     ORDER BY timestamp DESC LIMIT 1], then [fetchone()]. *)
Definition select_latest_price (asset : string) (d : database)
  : option price_row :=
  hd_error
    (sort (fun a b => (p_timestamp b <=? p_timestamp a)%Z)
       (filter (fun r => String.eqb (p_asset r) asset) (price_data d))).

(** [SELECT signal_value, sma_20, sma_50 FROM signals WHERE asset = ?
     ORDER BY timestamp DESC LIMIT 1], then [fetchone()]. *)
Definition select_latest_signal_row (asset : string) (d : database)
  : option signal_row :=
  hd_error
    (sort (fun a b => (s_timestamp b <=? s_timestamp a)%Z)
       (filter (fun r => String.eqb (s_asset r) asset) (signals d))).

(** [SELECT timestamp, action, quantity, price FROM trade_history
     WHERE asset = ? ORDER BY timestamp DESC LIMIT 5], then [fetchall()]. *)
Definition select_last_trades (asset : string) (d : database)
  : list trade_row :=
  firstn 5
    (sort (fun a b => (t_timestamp b <=? t_timestamp a)%Z)
       (filter (fun r => String.eqb (t_asset r) asset) (trade_history d))).

Definition ASSETS : list string := ["AAPL"%string; "BTC"%string].

(** The value stored under [summary[asset]]. *)
Definition summary_of (asset : string) (d : database) : asset_summary :=
  let latest_price := select_latest_price asset d in
  let latest_signal := select_latest_signal_row asset d in
  let trades := select_last_trades asset d in
  mk_asset_summary
    (match latest_price with Some r => p_price r | None => 0.0 end)
    (match latest_price with Some r => p_timestamp r | None => 0%Z end)
    (match latest_signal with
     | Some r => s_signal_value r
     | None => Finite 0.5
     end)
    (match latest_signal with
     | Some r => s_sma_20 r
     | None => Some (Finite 0.0)
     end)
    (match latest_signal with
     | Some r => s_sma_50 r
     | None => Some (Finite 0.0)
     end)
    (map (fun t => mk_trade_dict (t_timestamp t) (t_action t)
                     (t_quantity t) (t_price t))
         trades).

(** [get_dashboard_summary]: all queries run on one connection; the dict
    is kept as the list of its items in insertion order. *)
Definition get_dashboard_summary : M (list (string * asset_summary)) :=
  get_db_connection
    (fun d => (Return (map (fun asset => (asset, summary_of asset d)) ASSETS),
               d)).

End db_manager.
Import db_manager.

(** ** The part of pandas that the Signal Engine uses *)

Module pd.

(** A column label.  Records without field names give a frame whose
    columns are labelled by position; only dicts (or an explicit
    [columns=]) give named columns. *)
Inductive label : Type :=
| Position (n : nat)
| Name (s : string).

Definition label_eqb (a b : label) : bool :=
  match a, b with
  | Position n, Position m => Nat.eqb n m
  | Name s, Name t => String.eqb s t
  | _, _ => false
  end.

(** A frame over the records of [price_data]: its column labels and its
    records in index order. *)
Record frame : Type := mk_frame
  { columns : list label; records : list price_row }.

(** [pd.DataFrame(data)] for the list that [fetch_latest_data] returns.
    Its elements are [sqlite3.Row] objects (the connection's
    [row_factory]).  A [Row] is a sequence and no mapping, so pandas reads
    each as a tuple of four cells and labels the columns 0, 1, 2, 3; the
    names [id], [asset], [timestamp], [price] are not carried over. *)
Definition DataFrame (data : list price_row) : frame :=
  mk_frame (match data with
            | [] => []
            | _ :: _ => map Position (seq 0 4)
            end)
           data.

(** Is there a column labelled with the string [name]? *)
Definition has_column (df : frame) (name : string) : bool :=
  existsb (label_eqb (Name name)) (columns df).

(** [df[name]] for a column of numbers read through [field]: [KeyError]
    when no column has that label. *)
Definition getitem (df : frame) (name : string) (field : price_row -> Q)
  : result (list Q) :=
  if has_column df name then Return (map field (records df))
  else Raise KeyError.

End pd.

(** ** The Signal Engine (AIMathCalculationScript.py) *)

Module brain.

Definition SMA_SHORT_PERIOD : nat := 20.
Definition SMA_LONG_PERIOD : nat := 50.

Definition sum (xs : list Q) : Q := fold_right Qplus 0 xs.

Definition mean (xs : list Q) : Q :=
  sum xs / inject_Z (Z.of_nat (List.length xs)).

(** [series.rolling(window).mean()]: entry [i] is the mean of the [window]
    values ending at [i], and [nan] while fewer than [window] values are
    available ([min_periods] defaults to the window). *)
Definition rolling_mean (window : nat) (xs : list Q) : list float64 :=
  map (fun i =>
         if (window <=? i + 1)%nat
         then Finite (mean (firstn window (skipn (i + 1 - window) xs)))
         else NaN)
      (seq 0 (List.length xs)).

(** The order [sort_values(by='timestamp', ascending=True)] gives to
    records that have a [timestamp] column. *)
Definition sort_values_by_timestamp (data : list price_row) : list price_row :=
  sort (fun a b => (p_timestamp a <=? p_timestamp b)%Z) data.

(** [df.sort_values(by='timestamp', ascending=True).reset_index(drop=True)]:
    [KeyError] when the frame has no column labelled ['timestamp']. *)
Definition sort_values (df : pd.frame) : result pd.frame :=
  if pd.has_column df "timestamp"
  then Return (pd.mk_frame (pd.columns df)
                 (sort_values_by_timestamp (pd.records df)))
  else Raise KeyError.

(** Lines 44-59: the branch taken when both averages are numbers. *)
Definition max_diff : Q := 0.01.

Definition diff_pct (sma_20 sma_50 : float64) (price : Q) : float64 :=
  fdiv (fsub sma_20 sma_50) (Finite price).

Definition normalized_diff (sma_20 sma_50 : float64) (price : Q) : float64 :=
  clip (fdiv (diff_pct sma_20 sma_50 price) (Finite max_diff)) (-(1.0)) 1.0.

(** Lines 40-59. *)
Definition signal_value (sma_20 sma_50 : float64) (price : Q) : float64 :=
  if isna sma_20 || isna sma_50
  then Finite 0.5
  else fdiv (fadd (normalized_diff sma_20 sma_50 price) (Finite 1.0))
            (Finite 2.0).

(** [round(x, 4) if not pd.isna(x) else None] *)
Definition round_or_None (x : float64) (ndigits : nat) : option float64 :=
  if negb (isna x) then Some (round x ndigits) else None.

(** [generate_signals].  The frame is read as the source reads it, by
    column name ([by='timestamp'], [df['price']]); the two added columns
    are kept next to the frame. *)
Definition generate_signals (asset : string) : M unit :=
  data <- fetch_latest_data asset (SMA_LONG_PERIOD + 5) ;;
  if (List.length data <? SMA_LONG_PERIOD)%nat
  then print (SKIP_Not_enough_data asset SMA_LONG_PERIOD (List.length data))
  else
    df <- lift (sort_values (pd.DataFrame data)) ;;
    prices <- lift (pd.getitem df "price" p_price) ;;
    let SMA_20 := rolling_mean SMA_SHORT_PERIOD prices in
    let SMA_50 := rolling_mean SMA_LONG_PERIOD prices in
    latest <- lift (iloc_last (pd.records df)) ;;
    sma_20 <- lift (iloc_last SMA_20) ;;
    sma_50 <- lift (iloc_last SMA_50) ;;
    let signal_value := signal_value sma_20 sma_50 (p_price latest) in
    now <- time_time ;;
    insert_signal asset now
      (round signal_value 4)
      (round_or_None sma_20 4)
      (round_or_None sma_50 4) ;;;
    print (SIGNAL asset (round signal_value 4) (round_or_None sma_20 2)).

Definition ASSETS_TO_ANALYZE : list string := ["AAPL"%string; "BTC"%string].

Definition update_brain : M unit :=
  print Brain_Update_Running ;;;
  for_each ASSETS_TO_ANALYZE generate_signals.

End brain.

(** ** The Decision Engines *)

(** [StockTradingLoopLogic.py] and [CryptoTradingLoopLogic.py] are the same
    text up to their four constants and the wording of the neutral
    message; [engine.run] is that text, with the constants as a record. *)
Module engine.

Record config : Type := mk_config
  { ASSET : string;
    BUY_THRESHOLD : Q;
    SELL_THRESHOLD : Q;
    TRADE_QUANTITY : Q }.

Section Engine.
Variable c : config.

(** The [try] block that reads the latest signal, with its handler. *)
Definition fetch_signal : M float64 :=
  try_except
    (signal_row <- get_db_connection
                     (fun d => (Return (select_latest_signal (ASSET c) d), d)) ;;
     ret (match signal_row with
          | Some signal_value => signal_value
          | None => Finite 0.5
          end))
    (fun e =>
       print (ERROR_Could_not_fetch_signal e) ;;;
       ret (Finite 0.5)).

(** "2. Trading Decision Logic": the [if / elif / else]. *)
Definition decision (latest_signal : float64) : M action :=
  if ge latest_signal (BUY_THRESHOLD c) then ret BUY
  else if le latest_signal (SELL_THRESHOLD c) then ret SELL
  else
    print (HOLD_neutral (round latest_signal 4)
             (SELL_THRESHOLD c) (BUY_THRESHOLD c)) ;;;
    ret HOLD.

Definition run : M unit :=
  current_time <- time_time ;;
  print (Engine_Running (ASSET c) current_time) ;;;
  latest_data <- fetch_latest_data (ASSET c) 1 ;;
  match latest_data with
  | [] => print (HOLD_No_price_data (ASSET c))
  | latest_price_row :: _ =>
      latest_signal <- fetch_signal ;;
      let current_price := p_price latest_price_row in
      a <- decision latest_signal ;;
      match a with
      | HOLD => ret tt
      | _ =>
          insert_trade_action (ASSET c) current_time a
            (TRADE_QUANTITY c) current_price ;;;
          print (TRADE_EXECUTED a (TRADE_QUANTITY c) (ASSET c)
                   (round_q current_price 2) (round latest_signal 4))
      end
  end.
End Engine.

End engine.

Module stock_engine.
Definition STOCK_ASSET : string := "AAPL".
Definition BUY_THRESHOLD : Q := 0.75.
Definition SELL_THRESHOLD : Q := 0.25.
Definition TRADE_QUANTITY : Q := 10.

Definition config : engine.config :=
  engine.mk_config STOCK_ASSET BUY_THRESHOLD SELL_THRESHOLD TRADE_QUANTITY.

Definition run_stock_engine : M unit := engine.run config.
End stock_engine.

Module crypto_engine.
Definition CRYPTO_ASSET : string := "BTC".
Definition BUY_THRESHOLD : Q := 0.80.
Definition SELL_THRESHOLD : Q := 0.20.
Definition TRADE_QUANTITY : Q := 0.01.

Definition config : engine.config :=
  engine.mk_config CRYPTO_ASSET BUY_THRESHOLD SELL_THRESHOLD TRADE_QUANTITY.

Definition run_crypto_engine : M unit := engine.run config.
End crypto_engine.

(** ** The Feeder (PricePollingScript.py) *)

Module data_feeder.

Definition STOCKS : list string := ["AAPL"%string].
Definition CRYPTOS : list string := ["BTC"%string].

(** The value of the global [MOCK_PRICES] when the module is loaded. *)
Definition initial_MOCK_PRICES : list (string * Q) :=
  [("AAPL"%string, 170.00); ("BTC"%string, 65000.00)].

(** [d[k]] and [d[k] = v] on a dict kept as an association list. *)
Fixpoint dict_get (d : list (string * Q)) (k : string) : result Q :=
  match d with
  | [] => Raise KeyError
  | (k', v) :: rest => if String.eqb k' k then Return v else dict_get rest k
  end.

Fixpoint dict_set (d : list (string * Q)) (k : string) (v : Q)
  : list (string * Q) :=
  match d with
  | [] => [(k, v)]
  | (k', v') :: rest =>
      if String.eqb k' k then (k, v) :: rest else (k', v') :: dict_set rest k v
  end.

Definition get_MOCK_PRICES (asset : string) : M Q :=
  fun w => (dict_get (MOCK_PRICES w) asset, w).

Definition put_MOCK_PRICES (asset : string) (price : Q) : M unit :=
  fun w => (Return tt, set_MOCK_PRICES (dict_set (MOCK_PRICES w) asset price) w).

(** [random_uniform asset] is what [random.uniform(-0.005, 0.005)] returns
    while [asset] is processed. *)
Definition fetch_and_store_data (random_uniform : string -> Q) : M unit :=
  current_time <- time_time ;;
  print (Data_Feeder_Running current_time) ;;;
  for_each (STOCKS ++ CRYPTOS)
    (fun asset =>
       try_except
         (mock_price <- get_MOCK_PRICES asset ;;
          let fluctuation := random_uniform asset * mock_price in
          let current_price := mock_price + fluctuation in
          put_MOCK_PRICES asset current_price ;;;
          insert_price_data asset current_time (round_q current_price 4) ;;;
          print (SUCCESS asset (round_q current_price 2)))
         (fun e => print (ERROR_Failed_to_fetch_data asset e))).

End data_feeder.

(** ** The dashboard (FlaskDashboardEntryPoint.py) *)

Module app.

(** What the view returns: the template rendered for a summary (status
    200), or the fallback page with status 500. *)
Inductive response : Type :=
| Rendered (summary : list (string * asset_summary))
| Error_500 (e : exn).

(** [dashboard]: the summary query under [try / except Exception];
    rendering the template is the constructor [Rendered]. *)
Definition dashboard : M response :=
  try_except
    (summary_data <- get_dashboard_summary ;; ret (Rendered summary_data))
    (fun e => ret (Error_500 e)).

(** The badge class the template computes from [data.signal]
    (template line 68). *)
Definition signal_class (signal : float64) : string :=
  if ge signal 0.75 then "signal-buy"
  else if le signal 0.25 then "signal-sell"
  else "signal-hold".

Section Filters.
(** [time.strftime('%Y-%m-%d %H:%M:%S', time.localtime(timestamp))]. *)
Variable strftime_localtime : Z -> string.

(** The Jinja filter [format_timestamp]: 0 is falsy. *)
Definition format_timestamp (timestamp : Z) : string :=
  if (timestamp =? 0)%Z then "N/A" else strftime_localtime timestamp.
End Filters.

End app.

(** ** What the specification says, in its own words *)

Module spec.

(** "clamp(x, lo, hi)" *)
Definition clamp (x lo hi : Q) : Q :=
  if Qle_bool x lo then lo else if Qle_bool hi x then hi else x.

(** "diff_pct = (sma_short - sma_long) / latest_price" *)
Definition diff_pct (sma_short sma_long latest_price : Q) : Q :=
  (sma_short - sma_long) / latest_price.

(** "(clamp(((sma_short - sma_long) / latest_price) / 0.01, -1, 1) + 1) / 2" *)
Definition signal (sma_short sma_long latest_price : Q) : Q :=
  (clamp (diff_pct sma_short sma_long latest_price / 0.01) (-(1)) 1 + 1) / 2.

(** "simple moving average: arithmetic mean of the trailing N values" *)
Definition sma (n : nat) (prices : list Q) : Q :=
  brain.mean (skipn (List.length prices - n) prices).

End spec.

Import brain.

(** * Vocabulary of the statements *)

(** Does the storage layer fail on the [n]-th connection opened from [w]? *)
Definition fault_at (n : nat) (w : world) : bool := nth n (faults w) false.

(** The world once one more connection has been opened and closed. *)
Definition next_conn (w : world) : world := set_faults (tl (faults w)) w.

(** Printing [ls] on top of what [w] has printed. *)
Definition printed (ls : list line) (w : world) : world :=
  set_stdout (stdout w ++ ls) w.

(** The rows of one asset, and the price series the Signal Engine works
    on: the fetched rows in ascending time order. *)
Definition rows_of (asset : string) (d : database) : list price_row :=
  filter (fun r => String.eqb (p_asset r) asset) (price_data d).

Definition fetched_prices (asset : string) (d : database) : list Q :=
  map p_price
    (sort_values_by_timestamp
       (select_price_data asset (SMA_LONG_PERIOD + 5) d)).

(** The three values the formula of [generate_signals] takes from the
    fetched series. *)
Definition sma_short_of (asset : string) (d : database) : Q :=
  spec.sma SMA_SHORT_PERIOD (fetched_prices asset d).
Definition sma_long_of (asset : string) (d : database) : Q :=
  spec.sma SMA_LONG_PERIOD (fetched_prices asset d).
Definition latest_price_of (asset : string) (d : database) : Q :=
  last (fetched_prices asset d) 0.

Definition signal_of (asset : string) (d : database) : float64 :=
  signal_value (Finite (sma_short_of asset d)) (Finite (sma_long_of asset d))
    (latest_price_of asset d).

(** A Python integer that fits SQLite's signed 64-bit INTEGER. *)
Definition in_int64 (z : Z) : Prop :=
  (- 2 ^ 63 <= z < 2 ^ 63)%Z.

(** The database once [insert_signal] has stored the row [r]. *)
Definition append_signal (r : signal_row) (d : database) : database :=
  mk_database (price_data d) (price_data_seq d)
    (signals d ++ [r]) (s_id r)
    (trade_history d) (trade_history_seq d).

(** The signal a run started in [w] works with: the latest stored value,
    or 0.5 when there is none or when the lookup (the second connection
    of the run) fails. *)
Definition latest_signal_of (asset : string) (w : world) : float64 :=
  if fault_at 1 w then Finite 0.5
  else match select_latest_signal asset (db w) with
       | Some signal_value => signal_value
       | None => Finite 0.5
       end.

(** The world of a Decision Engine run once its banner is printed. *)
Definition started (c : engine.config) (w : world) : world :=
  printed [Engine_Running (engine.ASSET c) (clock w)] w.

(** The world in which the decision is taken. *)
Definition at_decision (c : engine.config) (w : world) : world :=
  let w1 := next_conn (started c w) in
  if fault_at 1 w
  then printed [Database_Error OperationalError;
                ERROR_Could_not_fetch_signal OperationalError]
         (next_conn w1)
  else next_conn w1.

(** "3. Execute and Log Trade", for the action [a] chosen at time
    [now] with the price row [r] and the signal [s]. *)
Definition execute (c : engine.config) (now : Z) (r : price_row)
           (s : float64) (a : action) : M unit :=
  match a with
  | HOLD => ret tt
  | _ =>
      insert_trade_action (engine.ASSET c) now a
        (engine.TRADE_QUANTITY c) (p_price r) ;;;
      print (TRADE_EXECUTED a (engine.TRADE_QUANTITY c) (engine.ASSET c)
               (round_q (p_price r) 2) (round s 4))
  end.

(** The trade row a run started in [w] writes for action [a]. *)
Definition trade_row_of (asset : string) (quantity : Q) (w : world)
           (r : price_row) (a : action) : trade_row :=
  mk_trade_row (trade_history_seq (db w) + 1) asset (clock w) a
    quantity (p_price r).

(** The decision rule of one engine: which action a signal value [q]
    selects, and what a run that found the price row [r] and works with
    the signal [q] writes. *)
Definition decision_rule (run : M unit) (c : engine.config)
           (asset : string) (buy sell quantity : Q) : Prop :=
  (forall (q : Q) (w0 : world),
      (fst (engine.decision c (Finite q) w0) = Return BUY <-> buy <= q)
      /\ (fst (engine.decision c (Finite q) w0) = Return SELL
          <-> q < buy /\ q <= sell)
      /\ (fst (engine.decision c (Finite q) w0) = Return HOLD
          <-> q < buy /\ sell < q))
  /\ (forall (w : world) (r : price_row) (rest : list price_row) (q : Q),
         fault_at 0 w = false ->
         select_price_data asset 1 (db w) = r :: rest ->
         latest_signal_of asset w = Finite q ->
         let w' := snd (run w) in
         (buy <= q -> fault_at 2 w = false ->
          trade_history (db w')
          = trade_history (db w) ++ [trade_row_of asset quantity w r BUY])
         /\ (q < buy -> q <= sell -> fault_at 2 w = false ->
             trade_history (db w')
             = trade_history (db w) ++ [trade_row_of asset quantity w r SELL])
         /\ (q < buy -> sell < q -> db w' = db w)).

(** What a storage fault on the trade insert (the third connection of a
    run that found a price row) does: the error stays inside
    [insert_trade_action], the run returns normally and the database is
    as before. *)
Definition trade_fault_rule (run : M unit) (asset : string) : Prop :=
  forall (w : world) (r : price_row) (rest : list price_row),
    fault_at 0 w = false ->
    select_price_data asset 1 (db w) = r :: rest ->
    fault_at 2 w = true ->
    fst (run w) = Return tt /\ db (snd (run w)) = db w.

(** What C6 says of one engine: a failed signal lookup is replaced by the
    neutral 0.5, the run goes on to the decision (it prints the neutral
    line for 0.5) and returns normally without touching the database;
    a run that finds no stored signal does the same to the database. *)
Definition degrades_to_neutral (run : M unit) (asset : string)
           (buy sell : Q) : Prop :=
  (forall (w : world) (r : price_row) (rest : list price_row),
      fault_at 0 w = false ->
      select_price_data asset 1 (db w) = r :: rest ->
      fault_at 1 w = true ->
      latest_signal_of asset w = Finite 0.5
      /\ fst (run w) = Return tt
      /\ db (snd (run w)) = db w
      /\ stdout (snd (run w))
         = stdout w ++ [Engine_Running asset (clock w);
                        Database_Error OperationalError;
                        ERROR_Could_not_fetch_signal OperationalError;
                        HOLD_neutral (Finite (1 # 2)) sell buy])
  /\ (forall (w : world) (r : price_row) (rest : list price_row),
         fault_at 0 w = false ->
         select_price_data asset 1 (db w) = r :: rest ->
         fault_at 1 w = false ->
         select_latest_signal asset (db w) = None ->
         latest_signal_of asset w = Finite 0.5
         /\ fst (run w) = Return tt
         /\ db (snd (run w)) = db w
         /\ stdout (snd (run w))
            = stdout w ++ [Engine_Running asset (clock w);
                           HOLD_neutral (Finite (1 # 2)) sell buy]).

(** What C7 says of one engine. *)
Definition skips_without_price (run : M unit) (asset : string) : Prop :=
  forall w : world,
    rows_of asset (db w) = [] ->
    db (snd (run w)) = db w
    /\ (fault_at 0 w = false ->
        fst (run w) = Return tt
        /\ stdout (snd (run w))
           = stdout w ++ [Engine_Running asset (clock w);
                          HOLD_No_price_data asset]).

Definition key (r : price_row) : string * Z := (p_asset r, p_timestamp r).

(** [UNIQUE(asset, timestamp)] as a property of the table. *)
Definition unique_keys (d : database) : Prop :=
  NoDup (map key (price_data d)).

(** The rows stored under a key. *)
Definition rows_at (asset : string) (timestamp : Z) (d : database)
  : list price_row :=
  filter (same_key asset timestamp) (price_data d).

Definition preserves {A} (m : M A) : Prop :=
  forall w, unique_keys (db w) -> unique_keys (db (snd (m w))).

(** The worlds the system can be in: a fresh database, then ticks of the
    four components in any order, direct calls of [insert_price_data], and
    changes of the environment (clock and coming storage faults). *)
Inductive reachable : world -> Prop :=
| reach_fresh (now : Z) (fs : list bool) :
    reachable (mk_world empty_database now fs
                 data_feeder.initial_MOCK_PRICES [])
| reach_env (w : world) (now : Z) (fs : list bool) :
    reachable w ->
    reachable (mk_world (db w) now fs (MOCK_PRICES w) (stdout w))
| reach_feeder (w : world) (u : string -> Q) :
    reachable w -> reachable (snd (data_feeder.fetch_and_store_data u w))
| reach_brain (w : world) :
    reachable w -> reachable (snd (update_brain w))
| reach_stock (w : world) :
    reachable w -> reachable (snd (stock_engine.run_stock_engine w))
| reach_crypto (w : world) :
    reachable w -> reachable (snd (crypto_engine.run_crypto_engine w))
| reach_insert_price (w : world) (asset : string) (t : Z) (p : Q) :
    reachable w -> reachable (snd (insert_price_data asset t p w)).

(** A computation that leaves the Feeder's global alone. *)
Definition keeps_mock {A} (m : M A) : Prop :=
  forall w, MOCK_PRICES (snd (m w)) = MOCK_PRICES w.

(** Both assets have an entry in [MOCK_PRICES]. *)
Definition has_mock_prices (w : world) : Prop :=
  exists a b,
    data_feeder.dict_get (MOCK_PRICES w) "AAPL" = Return a
    /\ data_feeder.dict_get (MOCK_PRICES w) "BTC" = Return b.


(** A computation that never raises. *)
Definition never_raises {A} (m : M A) : Prop :=
  forall w, exists a, fst (m w) = Return a.

(** ** Concrete stores used below *)

Module example.

(** [prices] as the history of [asset]: ids from 1, one row per second
    starting at [start]. *)
Definition history (asset : string) (start : Z) (prices : list Q)
  : list price_row :=
  map (fun ip => mk_price_row (Z.of_nat (fst ip) + 1) asset
                   (start + Z.of_nat (fst ip)) (snd ip))
      (combine (seq 0 (List.length prices)) prices).

(** 49 points at 100 followed by one point at 110. *)
Definition rising : list Q := repeat 100 49 ++ [110].

Definition store (rows : list price_row) : database :=
  mk_database rows (Z.of_nat (List.length rows)) [] 0 [] 0.

Definition world_with (rows : list price_row) (fs : list bool) : world :=
  mk_world (store rows) 1700000100 fs data_feeder.initial_MOCK_PRICES [].

Definition rising_world : world :=
  world_with (history "AAPL" 1700000000 rising) [].

(** Only 49 points. *)
Definition short_world : world :=
  world_with (history "AAPL" 1700000000 (repeat 100 49)) [].

(** One price row per asset and, for each, a stored signal that sits
    exactly on the buy threshold; [fs] are the coming storage faults. *)
Definition aapl_row : price_row := mk_price_row 1 "AAPL" 1700000000 120.
Definition btc_row : price_row := mk_price_row 2 "BTC" 1700000000 65000.

Definition threshold_world (fs : list bool) : world :=
  mk_world
    (mk_database [aapl_row; btc_row] 2
       [mk_signal_row 1 "AAPL" 1700000050 (Finite 0.75) None None;
        mk_signal_row 2 "BTC" 1700000050 (Finite 0.80) None None] 2
       [] 0)
    1700000100 fs data_feeder.initial_MOCK_PRICES [].

(** A store without any price row. *)
Definition empty_world : world := world_with [] [].

(** 49 points at 100 followed by one point at 120: the short average is
    then exactly half a percent of the latest price above the long one. *)
Definition steep_world : world :=
  world_with (history "AAPL" 1700000000 (repeat 100 49 ++ [120])) [].

End example.

(** * Properties *)

(** ** Lists and sorting *)

Section SortFacts.
Context {A : Type} (leb : A -> A -> bool).

Lemma insert_sorted_perm (x : A) (l : list A) :
  Permutation (insert_sorted leb x l) (x :: l).
Proof.
  induction l as [|y l IH]; simpl.
  - apply Permutation_refl.
  - destruct (leb x y).
    + apply Permutation_refl.
    + eapply perm_trans; [apply perm_skip, IH | apply perm_swap].
Qed.

Lemma sort_perm (l : list A) : Permutation (sort leb l) l.
Proof.
  induction l as [|x l IH]; simpl.
  - constructor.
  - eapply perm_trans; [apply insert_sorted_perm | apply perm_skip, IH].
Qed.

Lemma sort_length (l : list A) : List.length (sort leb l) = List.length l.
Proof. apply Permutation_length, sort_perm. Qed.
End SortFacts.

Lemma iloc_last_snoc {A} (l : list A) (x : A) : iloc_last (l ++ [x]) = Return x.
Proof. unfold iloc_last. rewrite rev_unit. reflexivity. Qed.

Lemma iloc_last_map {A B} (f : A -> B) (l : list A) :
  iloc_last (map f l) =
  match iloc_last l with Return x => Return (f x) | Raise e => Raise e end.
Proof.
  unfold iloc_last. rewrite <- map_rev. destruct (rev l); reflexivity.
Qed.

Lemma iloc_last_nonempty {A} (l : list A) (d : A) :
  l <> [] -> iloc_last l = Return (last l d).
Proof.
  intros Hne. destruct (exists_last Hne) as [l' [x ->]].
  rewrite iloc_last_snoc, last_last. reflexivity.
Qed.

Lemma select_price_data_length (asset : string) (limit : nat) (d : database) :
  List.length (select_price_data asset limit d)
  = Nat.min limit (List.length (rows_of asset d)).
Proof.
  unfold select_price_data, rows_of.
  rewrite length_firstn, sort_length. reflexivity.
Qed.

Lemma fetched_prices_length (asset : string) (d : database) :
  List.length (fetched_prices asset d)
  = Nat.min (SMA_LONG_PERIOD + 5) (List.length (rows_of asset d)).
Proof.
  unfold fetched_prices, sort_values_by_timestamp.
  rewrite length_map, sort_length. apply select_price_data_length.
Qed.

(** ** Moving averages *)

(** At the last row, the rolling mean over a window that fits is the mean
    of the trailing [window] prices. *)
Lemma rolling_mean_last (window : nat) (xs : list Q) :
  (0 < List.length xs)%nat -> (window <= List.length xs)%nat ->
  iloc_last (rolling_mean window xs) = Return (Finite (spec.sma window xs)).
Proof.
  intros Hpos Hfit. unfold rolling_mean, spec.sma.
  destruct (List.length xs) as [|m] eqn:Hlen; [lia|].
  rewrite seq_S, map_app. simpl map. rewrite iloc_last_snoc.
  simpl Nat.add.
  replace (window <=? m + 1)%nat with true
    by (symmetry; apply Nat.leb_le; lia).
  replace (m + 1 - window)%nat with (S m - window)%nat by lia.
  rewrite firstn_all2; [reflexivity|].
  rewrite length_skipn. lia.
Qed.

(** While the window does not fit, the rolling mean is [nan]. *)
Lemma rolling_mean_last_short (window : nat) (xs : list Q) :
  (0 < List.length xs)%nat -> (List.length xs < window)%nat ->
  iloc_last (rolling_mean window xs) = Return NaN.
Proof.
  intros Hpos Hshort. unfold rolling_mean.
  destruct (List.length xs) as [|m] eqn:Hlen; [lia|].
  rewrite seq_S, map_app. simpl map. rewrite iloc_last_snoc.
  simpl Nat.add.
  replace (window <=? m + 1)%nat with false
    by (symmetry; apply Nat.leb_gt; lia).
  reflexivity.
Qed.

(** ** The store wrapper *)

Lemma fault_at_0 (w : world) :
  fault_at 0 w = match faults w with b :: _ => b | [] => false end.
Proof. unfold fault_at. destruct (faults w); reflexivity. Qed.

Lemma fault_at_next (n : nat) (w : world) :
  fault_at n (next_conn w) = fault_at (S n) w.
Proof.
  unfold fault_at, next_conn. simpl. destruct (faults w); simpl;
    [destruct n|]; reflexivity.
Qed.

Lemma fault_at_printed (n : nat) (ls : list line) (w : world) :
  fault_at n (printed ls w) = fault_at n w.
Proof. reflexivity. Qed.

Lemma fault_at_set_db (n : nat) (d : database) (w : world) :
  fault_at n (set_db d w) = fault_at n w.
Proof. reflexivity. Qed.

Lemma get_db_connection_fault {A} (body : database -> result A * database)
      (w : world) :
  fault_at 0 w = true ->
  get_db_connection body w
  = (Raise OperationalError,
     printed [Database_Error OperationalError] (next_conn w)).
Proof.
  rewrite fault_at_0. unfold get_db_connection, printed, next_conn. intros H.
  destruct (faults w) as [|[|] fs]; try discriminate. reflexivity.
Qed.

Lemma get_db_connection_commit {A} (body : database -> result A * database)
      (w : world) (a : A) (d' : database) :
  fault_at 0 w = false -> body (db w) = (Return a, d') ->
  get_db_connection body w = (Return a, set_db d' (next_conn w)).
Proof.
  rewrite fault_at_0. unfold get_db_connection, printed, next_conn. intros H Hb.
  destruct (faults w) as [|[|] fs]; try discriminate;
    rewrite Hb; reflexivity.
Qed.

Lemma get_db_connection_rollback {A} (body : database -> result A * database)
      (w : world) (e : exn) (d' : database) :
  fault_at 0 w = false -> body (db w) = (Raise e, d') ->
  is_sqlite3_Error e = true ->
  get_db_connection body w = (Raise e, printed [Database_Error e] (next_conn w)).
Proof.
  rewrite fault_at_0. unfold get_db_connection, printed, next_conn. intros H Hb He.
  destruct (faults w) as [|[|] fs]; try discriminate;
    rewrite Hb, He; reflexivity.
Qed.

Lemma set_db_same (w : world) : set_db (db w) w = w.
Proof. destruct w; reflexivity. Qed.

Lemma set_db_next_conn (w : world) : set_db (db w) (next_conn w) = next_conn w.
Proof. destruct w; reflexivity. Qed.

Lemma fetch_latest_data_ok (asset : string) (limit : nat) (w : world) :
  fault_at 0 w = false ->
  fetch_latest_data asset limit w
  = (Return (select_price_data asset limit (db w)), next_conn w).
Proof.
  intros H. unfold fetch_latest_data.
  erewrite get_db_connection_commit by (eassumption || reflexivity).
  rewrite set_db_next_conn. reflexivity.
Qed.

Lemma fetch_latest_data_fault (asset : string) (limit : nat) (w : world) :
  fault_at 0 w = true ->
  fetch_latest_data asset limit w
  = (Raise OperationalError,
     printed [Database_Error OperationalError] (next_conn w)).
Proof. intros H. apply get_db_connection_fault, H. Qed.

Lemma insert_price_data_ok (asset : string) (t : Z) (price : Q) (w : world) :
  fault_at 0 w = false ->
  insert_price_data asset t price w
  = (Return tt,
     set_db (insert_or_replace_price_data asset t price (db w)) (next_conn w)).
Proof.
  intros H. unfold insert_price_data, try_except.
  erewrite get_db_connection_commit by (eassumption || reflexivity).
  reflexivity.
Qed.

Lemma insert_price_data_fault (asset : string) (t : Z) (price : Q) (w : world) :
  fault_at 0 w = true ->
  insert_price_data asset t price w
  = (Return tt,
     printed [Database_Error OperationalError;
              Error_inserting_price_data OperationalError] (next_conn w)).
Proof.
  intros H. unfold insert_price_data, try_except.
  rewrite get_db_connection_fault by assumption.
  unfold print, printed, set_stdout. simpl. rewrite <- app_assoc. reflexivity.
Qed.


Lemma insert_signal_nan (asset : string) (t : Z)
      (a b : option float64) (w : world) :
  fault_at 0 w = false ->
  insert_signal asset t NaN a b w
  = (Return tt,
     printed [Database_Error IntegrityError;
              Error_inserting_signal IntegrityError] (next_conn w)).
Proof.
  intros H. unfold insert_signal, try_except.
  erewrite get_db_connection_rollback by (eassumption || reflexivity).
  unfold print, printed, set_stdout. simpl. rewrite <- app_assoc. reflexivity.
Qed.

Lemma insert_signal_ok (asset : string) (t : Z) (v : float64)
      (a b : option float64) (w : world) :
  fault_at 0 w = false -> isna v = false ->
  insert_signal asset t v a b w
  = (Return tt,
     set_db
       (mk_database
          (price_data (db w)) (price_data_seq (db w))
          (signals (db w)
             ++ [mk_signal_row (signals_seq (db w) + 1) asset t v
                   (bind_nullable a) (bind_nullable b)])
          (signals_seq (db w) + 1)
          (trade_history (db w)) (trade_history_seq (db w)))
       (next_conn w)).
Proof.
  intros H Hv. unfold insert_signal, try_except.
  erewrite get_db_connection_commit; [reflexivity | assumption |].
  unfold insert_into_signals, bind_double. rewrite Hv. reflexivity.
Qed.

Lemma insert_trade_action_ok (asset : string) (t : Z) (a : action)
      (quantity price : Q) (w : world) :
  fault_at 0 w = false ->
  insert_trade_action asset t a quantity price w
  = (Return tt,
     set_db (insert_into_trade_history asset t a quantity price (db w))
       (next_conn w)).
Proof.
  intros H. unfold insert_trade_action, try_except.
  erewrite get_db_connection_commit by (eassumption || reflexivity).
  reflexivity.
Qed.

Lemma insert_trade_action_fault (asset : string) (t : Z) (a : action)
      (quantity price : Q) (w : world) :
  fault_at 0 w = true ->
  insert_trade_action asset t a quantity price w
  = (Return tt,
     printed [Database_Error OperationalError;
              Error_inserting_trade_action OperationalError] (next_conn w)).
Proof.
  intros H. unfold insert_trade_action, try_except.
  rewrite get_db_connection_fault by assumption.
  unfold print, printed, set_stdout. simpl. rewrite <- app_assoc. reflexivity.
Qed.

(** [lra] reads [x / c] as an atom; [qconst] turns divisions by closed
    constants into multiplications first. *)
Ltac qconst :=
  unfold Qdiv in *;
  repeat match goal with
         | |- context [Qinv (?n # ?d)] =>
             let v := eval vm_compute in (Qinv (n # d)) in
             change (Qinv (n # d)) with v
         | H : context [Qinv (?n # ?d)] |- _ =>
             let v := eval vm_compute in (Qinv (n # d)) in
             change (Qinv (n # d)) with v in H
         end.

(** ** Rounding *)

Lemma rint_comp (x y : Q) : x == y -> rint x = rint y.
Proof.
  intros H. unfold rint. rewrite (Qfloor_comp x y H).
  assert (Hc : Qcompare (x - inject_Z (Qfloor y)) 0.5
               = Qcompare (y - inject_Z (Qfloor y)) 0.5)
    by (apply Qcompare_comp; [rewrite H|]; reflexivity).
  rewrite Hc. reflexivity.
Qed.

Lemma round_q_comp (x y : Q) (n : nat) : x == y -> round_q x n = round_q y n.
Proof.
  intros H. unfold round_q.
  rewrite (rint_comp (x * inject_Z (10 ^ Z.of_nat n))
                     (y * inject_Z (10 ^ Z.of_nat n)))
    by (rewrite H; reflexivity).
  reflexivity.
Qed.

(** [rint] stays between integer bounds. *)
Lemma rint_bounds (x : Q) (lo hi : Z) :
  inject_Z lo <= x -> x <= inject_Z hi -> (lo <= rint x <= hi)%Z.
Proof.
  intros Hlo Hhi.
  assert (Hf1 := Qfloor_le x). assert (Hf2 := Qlt_floor x).
  assert (Hlof : (lo <= Qfloor x)%Z).
  { rewrite <- (Qfloor_Z lo). apply Qfloor_resp_le, Hlo. }
  assert (Hhif : (Qfloor x <= hi)%Z).
  { rewrite <- (Qfloor_Z hi). apply Qfloor_resp_le, Hhi. }
  assert (Hup : 0.5 <= x - inject_Z (Qfloor x) -> (Qfloor x + 1 <= hi)%Z).
  { intros Hhalf.
    destruct (Z.eq_dec (Qfloor x) hi) as [E|NE]; [|lia].
    exfalso. rewrite E in Hhalf, Hf1. lra. }
  unfold rint.
  destruct (Qcompare_spec (x - inject_Z (Qfloor x)) 0.5) as [E|L|G].
  - destruct (Z.even (Qfloor x)); [lia|].
    assert ((Qfloor x + 1 <= hi)%Z) by (apply Hup; rewrite E; apply Qle_refl).
    lia.
  - lia.
  - assert ((Qfloor x + 1 <= hi)%Z) by (apply Hup; apply Qlt_le_weak, G).
    lia.
Qed.

Lemma round_q_4_unit (v : Q) : 0 <= v <= 1 -> 0 <= round_q v 4 <= 1.
Proof.
  intros [H0 H1]. unfold round_q. rewrite Qred_correct.
  change (inject_Z (10 ^ Z.of_nat 4)) with (10000 # 1).
  destruct (rint_bounds (v * (10000 # 1)) 0 10000) as [Ha Hb].
  - change (inject_Z 0) with 0. nra.
  - change (inject_Z 10000) with (10000 # 1). nra.
  - set (z := rint (v * (10000 # 1))) in *.
    assert (Hz0 : 0 <= inject_Z z)
      by (change 0 with (inject_Z 0); rewrite <- Zle_Qle; exact Ha).
    assert (Hz1 : inject_Z z <= 10000 # 1)
      by (change (10000 # 1) with (inject_Z 10000); rewrite <- Zle_Qle;
          exact Hb).
    split.
    + apply Qle_shift_div_l; [reflexivity | lra].
    + apply Qle_shift_div_r; [reflexivity | lra].
Qed.

(** ** The signal formula *)

Lemma sgn_nonzero (p : Q) : ~ p == 0 -> sgn p <> Eq.
Proof. intros Hp E. apply Hp. apply Qeq_alt. exact E. Qed.

Lemma fdiv_finite (a b : Q) :
  ~ b == 0 -> fdiv (Finite a) (Finite b) = Finite (a / b).
Proof.
  intros Hb. unfold fdiv. pose proof (sgn_nonzero b Hb).
  destruct (sgn b); congruence.
Qed.

Lemma clamp_min_max (x : Q) :
  Qmin 1.0 (Qmax x (-(1.0))) == spec.clamp x (-(1)) 1.
Proof.
  unfold spec.clamp.
  destruct (Qle_bool x (-(1))) eqn:E1.
  - apply Qle_bool_iff in E1.
    rewrite (Q.max_r x (-(1.0))) by lra.
    rewrite Q.min_r by lra. lra.
  - assert (Hx : -(1) < x).
    { apply Qnot_le_lt. intros H. apply Qle_bool_iff in H. congruence. }
    rewrite (Q.max_l x (-(1.0))) by lra.
    destruct (Qle_bool 1 x) eqn:E2.
    + apply Qle_bool_iff in E2. rewrite Q.min_l by lra. lra.
    + assert (Hx1 : x < 1).
      { apply Qnot_le_lt. intros H. apply Qle_bool_iff in H. congruence. }
      rewrite Q.min_r by lra. reflexivity.
Qed.

(** With both averages numbers and a non-zero price, the code computes
    the specification's formula. *)
Lemma signal_value_formula (a b p : Q) :
  ~ p == 0 ->
  exists v, signal_value (Finite a) (Finite b) p = Finite v
            /\ v == spec.signal a b p.
Proof.
  intros Hp. unfold signal_value, normalized_diff, diff_pct. simpl isna.
  simpl orb. cbv iota. unfold fsub.
  rewrite (fdiv_finite (a - b) p Hp).
  rewrite (fdiv_finite _ max_diff) by (unfold max_diff; lra).
  unfold clip, fadd.
  rewrite fdiv_finite by lra.
  eexists. split; [reflexivity|].
  unfold spec.signal, spec.diff_pct, max_diff.
  rewrite clamp_min_max.
  set (c := spec.clamp ((a - b) / p / 0.01) (-(1)) 1). qconst. lra.
Qed.

(** Whatever the price, the value is [nan] or lies in the unit interval. *)
Lemma signal_value_range (a b : float64) (p : Q) :
  match signal_value a b p with
  | Finite v => 0 <= v <= 1
  | NaN => True
  | _ => False
  end.
Proof.
  unfold signal_value.
  destruct (isna a || isna b); [lra|].
  unfold normalized_diff.
  destruct (fdiv (diff_pct a b p) (Finite max_diff)) as [x| | |];
    unfold clip, fadd; try exact I.
  - set (c := Qmin 1.0 (Qmax x (-(1.0)))).
    assert (Hc : -(1) <= c <= 1).
    { unfold c. split.
      - apply Q.min_glb; [lra|]. eapply Qle_trans; [|apply Q.le_max_r]. lra.
      - eapply Qle_trans; [apply Q.le_min_l|]. lra. }
    rewrite fdiv_finite by lra. qconst. lra.
  - vm_compute. split; discriminate.
  - vm_compute. split; discriminate.
Qed.

(** ** Runs of the Signal Engine *)

Lemma generate_signals_fetch_fault (asset : string) (w : world) :
  fault_at 0 w = true ->
  generate_signals asset w
  = (Raise OperationalError,
     printed [Database_Error OperationalError] (next_conn w)).
Proof.
  intros H. unfold generate_signals, bind.
  rewrite fetch_latest_data_fault by assumption. reflexivity.
Qed.

Lemma generate_signals_skip (asset : string) (w : world) :
  fault_at 0 w = false ->
  (List.length (rows_of asset (db w)) < SMA_LONG_PERIOD)%nat ->
  generate_signals asset w
  = (Return tt,
     printed [SKIP_Not_enough_data asset SMA_LONG_PERIOD
                (List.length (rows_of asset (db w)))]
       (next_conn w)).
Proof.
  intros H Hlen. unfold generate_signals, bind.
  rewrite fetch_latest_data_ok by assumption.
  rewrite select_price_data_length.
  rewrite Nat.min_r by (unfold SMA_LONG_PERIOD in *; lia).
  replace (_ <? _)%nat with true by (symmetry; apply Nat.ltb_lt; exact Hlen).
  reflexivity.
Qed.

(** The frame built from the fetched records has positional labels only:
    no string names one of its columns. *)
Lemma DataFrame_has_no_named_column (data : list price_row) (name : string) :
  pd.has_column (pd.DataFrame data) name = false.
Proof. destruct data; reflexivity. Qed.

Lemma sort_values_DataFrame (data : list price_row) :
  sort_values (pd.DataFrame data) = Raise KeyError.
Proof.
  unfold sort_values. rewrite DataFrame_has_no_named_column. reflexivity.
Qed.


(** Once the length check passes the run stops at [sort_values]. *)
Lemma generate_signals_KeyError (asset : string) (w : world) :
  fault_at 0 w = false ->
  (SMA_LONG_PERIOD <= List.length (rows_of asset (db w)))%nat ->
  generate_signals asset w = (Raise KeyError, next_conn w).
Proof.
  intros H Hlen.
  assert (Hdata : (SMA_LONG_PERIOD
                   <= List.length (select_price_data asset (SMA_LONG_PERIOD + 5)
                                     (db w)))%nat).
  { rewrite select_price_data_length. unfold SMA_LONG_PERIOD in *. lia. }
  unfold generate_signals. unfold bind at 1.
  rewrite fetch_latest_data_ok by assumption.
  replace (_ <? _)%nat with false by (symmetry; apply Nat.ltb_ge; exact Hdata).
  unfold bind at 1, lift at 1.
  rewrite sort_values_DataFrame. reflexivity.
Qed.

(** The three ways a run can end. *)
Lemma generate_signals_cases (asset : string) (w : world) :
  generate_signals asset w
  = (Raise OperationalError,
     printed [Database_Error OperationalError] (next_conn w))
  \/ generate_signals asset w
     = (Return tt,
        printed [SKIP_Not_enough_data asset SMA_LONG_PERIOD
                   (List.length (rows_of asset (db w)))]
          (next_conn w))
  \/ generate_signals asset w = (Raise KeyError, next_conn w).
Proof.
  destruct (fault_at 0 w) eqn:H0.
  { left. apply generate_signals_fetch_fault, H0. }
  destruct (Nat.lt_ge_cases (List.length (rows_of asset (db w)))
              SMA_LONG_PERIOD) as [Hshort|Hlen].
  - right. left. apply generate_signals_skip; assumption.
  - right. right. apply generate_signals_KeyError; assumption.
Qed.

(** No run of the Signal Engine changes the database. *)
Lemma generate_signals_db (asset : string) (w : world) :
  db (snd (generate_signals asset w)) = db w.
Proof.
  destruct (generate_signals_cases asset w) as [E|[E|E]]; rewrite E;
    reflexivity.
Qed.

(** ** Claims about the Signal Engine *)

(** C1 (the code falls short of the claim).  Whenever the asset has at
    least 50 price points and the fetch succeeds, the run raises
    [KeyError] at [sort_values(by='timestamp')]: the frame built from the
    fetched [sqlite3.Row] records has the column labels 0..3.  One
    connection has been used, nothing has been printed, and the database
    is as before: no signal value is computed and none is stored. *)
Theorem accepted_series_raises_KeyError (asset : string) (w : world) :
  fault_at 0 w = false ->
  (SMA_LONG_PERIOD <= List.length (rows_of asset (db w)))%nat ->
  generate_signals asset w = (Raise KeyError, next_conn w)
  /\ db (snd (generate_signals asset w)) = db w
  /\ stdout (snd (generate_signals asset w)) = stdout w.
Proof.
  intros H0 Hlen.
  rewrite generate_signals_KeyError by assumption.
  repeat split.
Qed.

Lemma accepted_series_raises_KeyError_witness :
  let w := example.steep_world in
  generate_signals "AAPL" w = (Raise KeyError, next_conn w)
  /\ db (snd (generate_signals "AAPL" w)) = db w
  /\ stdout (snd (generate_signals "AAPL" w)) = stdout w.
Proof.
  apply (accepted_series_raises_KeyError "AAPL" example.steep_world).
  - vm_compute. reflexivity.
  - vm_compute. repeat constructor.
Defined.



(** C5.  When the asset has fewer than [SMA_LONG_PERIOD] = 50 price
    points, the run changes nothing in the database; and when the fetch
    itself succeeds it returns normally, having printed the skip line and
    nothing else. *)
Theorem not_enough_data_skips (asset : string) (w : world) :
  (List.length (rows_of asset (db w)) < 50)%nat ->
  let r := generate_signals asset w in
  db (snd r) = db w
  /\ (fault_at 0 w = false ->
      fst r = Return tt
      /\ stdout (snd r)
         = stdout w ++ [SKIP_Not_enough_data asset 50
                          (List.length (rows_of asset (db w)))]).
Proof.
  intros Hlen. cbv zeta. split.
  - destruct (fault_at 0 w) eqn:H0.
    + rewrite generate_signals_fetch_fault by assumption. reflexivity.
    + rewrite generate_signals_skip by assumption. reflexivity.
  - intros H0. rewrite generate_signals_skip by assumption.
    split; reflexivity.
Qed.

Lemma not_enough_data_skips_witness :
  let w := example.short_world in
  let r := generate_signals "AAPL" w in
  db (snd r) = db w
  /\ (fault_at 0 w = false ->
      fst r = Return tt
      /\ stdout (snd r)
         = stdout w ++ [SKIP_Not_enough_data "AAPL" 50
                          (List.length (rows_of "AAPL" (db w)))]).
Proof.
  apply (not_enough_data_skips "AAPL" example.short_world).
  vm_compute. reflexivity.
Defined.



(** C9 (the code falls short of the claim).  For the series of 49 points
    at 100 followed by one point at 110 the claim's arithmetic is right:
    the trailing means are 100.5 and 100.2, the difference relative to
    the price is positive and the formula gives a value above 0.5.  A run
    of the Signal Engine on a store whose fetched rows carry that series
    does not get there: it raises [KeyError] and writes no signal row. *)
Theorem rising_series_raises_KeyError (asset : string) (w : world) :
  fetched_prices asset (db w) = example.rising ->
  fault_at 0 w = false ->
  spec.sma SMA_SHORT_PERIOD example.rising == 100.5
  /\ spec.sma SMA_LONG_PERIOD example.rising == 100.2
  /\ 0 < spec.diff_pct 100.5 100.2 110
  /\ 0.5 < spec.signal 100.5 100.2 110
  /\ fst (generate_signals asset w) = Raise KeyError
  /\ signals (db (snd (generate_signals asset w))) = signals (db w).
Proof.
  intros Hprices H0.
  assert (Hlen : (SMA_LONG_PERIOD <= List.length (rows_of asset (db w)))%nat).
  { pose proof (fetched_prices_length asset (db w)) as HL.
    rewrite Hprices in HL. unfold SMA_LONG_PERIOD in *.
    change (List.length example.rising) with 50%nat in HL. lia. }
  split; [|split; [|split; [|split; [|split]]]].
  - vm_compute. reflexivity.
  - vm_compute. reflexivity.
  - vm_compute. reflexivity.
  - vm_compute. reflexivity.
  - rewrite generate_signals_KeyError by assumption. reflexivity.
  - rewrite generate_signals_db. reflexivity.
Qed.

Lemma rising_series_raises_KeyError_witness :
  let w := example.rising_world in
  spec.sma SMA_SHORT_PERIOD example.rising == 100.5
  /\ spec.sma SMA_LONG_PERIOD example.rising == 100.2
  /\ 0 < spec.diff_pct 100.5 100.2 110
  /\ 0.5 < spec.signal 100.5 100.2 110
  /\ fst (generate_signals "AAPL" w) = Raise KeyError
  /\ signals (db (snd (generate_signals "AAPL" w))) = signals (db w).
Proof.
  apply (rising_series_raises_KeyError "AAPL" example.rising_world);
    vm_compute; reflexivity.
Defined.

(** ** Runs of a Decision Engine *)

Section EngineRuns.
Variable c : engine.config.

Lemma fetch_signal_ok (w : world) :
  fault_at 0 w = false ->
  engine.fetch_signal c w
  = (Return (match select_latest_signal (engine.ASSET c) (db w) with
             | Some v => v
             | None => Finite 0.5
             end),
     next_conn w).
Proof.
  intros H. unfold engine.fetch_signal, try_except, bind.
  erewrite get_db_connection_commit by (eassumption || reflexivity).
  rewrite set_db_next_conn. reflexivity.
Qed.

Lemma fetch_signal_fault (w : world) :
  fault_at 0 w = true ->
  engine.fetch_signal c w
  = (Return (Finite 0.5),
     printed [Database_Error OperationalError;
              ERROR_Could_not_fetch_signal OperationalError]
       (next_conn w)).
Proof.
  intros H. unfold engine.fetch_signal, try_except, bind.
  rewrite get_db_connection_fault by assumption.
  unfold print, printed, set_stdout, ret. simpl.
  rewrite <- app_assoc. reflexivity.
Qed.

Lemma run_started (w : world) :
  engine.run c w
  = (latest_data <- fetch_latest_data (engine.ASSET c) 1 ;;
     match latest_data with
     | [] => print (HOLD_No_price_data (engine.ASSET c))
     | latest_price_row :: _ =>
         latest_signal <- engine.fetch_signal c ;;
         a <- engine.decision c latest_signal ;;
         match a with
         | HOLD => ret tt
         | _ =>
             insert_trade_action (engine.ASSET c) (clock w) a
               (engine.TRADE_QUANTITY c) (p_price latest_price_row) ;;;
             print (TRADE_EXECUTED a (engine.TRADE_QUANTITY c)
                      (engine.ASSET c)
                      (round_q (p_price latest_price_row) 2)
                      (round latest_signal 4))
         end
     end) (started c w).
Proof. reflexivity. Qed.

Lemma run_fetch_fault (w : world) :
  fault_at 0 w = true ->
  engine.run c w
  = (Raise OperationalError,
     printed [Database_Error OperationalError] (next_conn (started c w))).
Proof.
  intros H. rewrite run_started. unfold bind at 1.
  rewrite fetch_latest_data_fault by exact H. reflexivity.
Qed.

Lemma run_no_price (w : world) :
  fault_at 0 w = false ->
  select_price_data (engine.ASSET c) 1 (db w) = [] ->
  engine.run c w
  = (Return tt,
     printed [HOLD_No_price_data (engine.ASSET c)] (next_conn (started c w))).
Proof.
  intros H Hsel. rewrite run_started. unfold bind at 1.
  rewrite fetch_latest_data_ok by exact H.
  change (db (started c w)) with (db w). rewrite Hsel. reflexivity.
Qed.

Lemma execute_ok (now : Z) (r : price_row) (s : float64) (a : action)
      (w : world) :
  a <> HOLD -> fault_at 0 w = false ->
  execute c now r s a w
  = (Return tt,
     printed [TRADE_EXECUTED a (engine.TRADE_QUANTITY c) (engine.ASSET c)
                (round_q (p_price r) 2) (round s 4)]
       (set_db (insert_into_trade_history (engine.ASSET c) now a
                  (engine.TRADE_QUANTITY c) (p_price r) (db w))
          (next_conn w))).
Proof.
  intros Ha H. destruct a; try congruence; unfold execute, bind;
    rewrite insert_trade_action_ok by assumption; reflexivity.
Qed.

Lemma execute_fault (now : Z) (r : price_row) (s : float64) (a : action)
      (w : world) :
  a <> HOLD -> fault_at 0 w = true ->
  execute c now r s a w
  = (Return tt,
     printed [Database_Error OperationalError;
              Error_inserting_trade_action OperationalError;
              TRADE_EXECUTED a (engine.TRADE_QUANTITY c) (engine.ASSET c)
                (round_q (p_price r) 2) (round s 4)]
       (next_conn w)).
Proof.
  intros Ha H. destruct a; try congruence; unfold execute, bind;
    rewrite insert_trade_action_fault by assumption;
    unfold print, printed, set_stdout; simpl; rewrite <- app_assoc;
    reflexivity.
Qed.

(** With a price row, the run is the decision and what follows it. *)
Lemma run_with_price (w : world) (r : price_row) (rest : list price_row) :
  fault_at 0 w = false ->
  select_price_data (engine.ASSET c) 1 (db w) = r :: rest ->
  engine.run c w
  = (a <- engine.decision c (latest_signal_of (engine.ASSET c) w) ;;
     execute c (clock w) r (latest_signal_of (engine.ASSET c) w) a)
    (at_decision c w).
Proof.
  intros H Hsel. rewrite run_started. unfold bind at 1.
  rewrite fetch_latest_data_ok by exact H.
  change (db (started c w)) with (db w). rewrite Hsel.
  unfold bind at 1. unfold at_decision, latest_signal_of.
  destruct (fault_at 1 w) eqn:H1.
  - rewrite fetch_signal_fault by (rewrite fault_at_next; exact H1).
    reflexivity.
  - rewrite fetch_signal_ok by (rewrite fault_at_next; exact H1).
    reflexivity.
Qed.

Lemma db_at_decision (w : world) : db (at_decision c w) = db w.
Proof. unfold at_decision. destruct (fault_at 1 w); reflexivity. Qed.

Lemma fault_at_decision (w : world) :
  fault_at 0 (at_decision c w) = fault_at 2 w.
Proof.
  unfold at_decision. destruct (fault_at 1 w);
    rewrite ?fault_at_printed, !fault_at_next; reflexivity.
Qed.

Lemma decision_buy (s : float64) (w : world) :
  ge s (engine.BUY_THRESHOLD c) = true ->
  engine.decision c s w = (Return BUY, w).
Proof. intros H. unfold engine.decision. rewrite H. reflexivity. Qed.

Lemma decision_sell (s : float64) (w : world) :
  ge s (engine.BUY_THRESHOLD c) = false ->
  le s (engine.SELL_THRESHOLD c) = true ->
  engine.decision c s w = (Return SELL, w).
Proof. intros H H'. unfold engine.decision. rewrite H, H'. reflexivity. Qed.

Lemma decision_hold (s : float64) (w : world) :
  ge s (engine.BUY_THRESHOLD c) = false ->
  le s (engine.SELL_THRESHOLD c) = false ->
  engine.decision c s w
  = (Return HOLD,
     printed [HOLD_neutral (round s 4)
                (engine.SELL_THRESHOLD c) (engine.BUY_THRESHOLD c)] w).
Proof. intros H H'. unfold engine.decision. rewrite H, H'. reflexivity. Qed.

Lemma run_buy (w : world) (r : price_row) (rest : list price_row) :
  fault_at 0 w = false ->
  select_price_data (engine.ASSET c) 1 (db w) = r :: rest ->
  ge (latest_signal_of (engine.ASSET c) w) (engine.BUY_THRESHOLD c) = true ->
  fault_at 2 w = false ->
  engine.run c w
  = (Return tt,
     printed [TRADE_EXECUTED BUY (engine.TRADE_QUANTITY c) (engine.ASSET c)
                (round_q (p_price r) 2)
                (round (latest_signal_of (engine.ASSET c) w) 4)]
       (set_db (insert_into_trade_history (engine.ASSET c) (clock w) BUY
                  (engine.TRADE_QUANTITY c) (p_price r) (db w))
          (next_conn (at_decision c w)))).
Proof.
  intros H Hsel Hge H2.
  rewrite (run_with_price w r rest H Hsel).
  unfold bind at 1. rewrite decision_buy by exact Hge.
  rewrite execute_ok
    by (try discriminate; rewrite fault_at_decision; exact H2).
  rewrite db_at_decision. reflexivity.
Qed.

Lemma run_sell (w : world) (r : price_row) (rest : list price_row) :
  fault_at 0 w = false ->
  select_price_data (engine.ASSET c) 1 (db w) = r :: rest ->
  ge (latest_signal_of (engine.ASSET c) w) (engine.BUY_THRESHOLD c) = false ->
  le (latest_signal_of (engine.ASSET c) w) (engine.SELL_THRESHOLD c) = true ->
  fault_at 2 w = false ->
  engine.run c w
  = (Return tt,
     printed [TRADE_EXECUTED SELL (engine.TRADE_QUANTITY c) (engine.ASSET c)
                (round_q (p_price r) 2)
                (round (latest_signal_of (engine.ASSET c) w) 4)]
       (set_db (insert_into_trade_history (engine.ASSET c) (clock w) SELL
                  (engine.TRADE_QUANTITY c) (p_price r) (db w))
          (next_conn (at_decision c w)))).
Proof.
  intros H Hsel Hge Hle H2.
  rewrite (run_with_price w r rest H Hsel).
  unfold bind at 1. rewrite decision_sell by assumption.
  rewrite execute_ok
    by (try discriminate; rewrite fault_at_decision; exact H2).
  rewrite db_at_decision. reflexivity.
Qed.

Lemma run_hold (w : world) (r : price_row) (rest : list price_row) :
  fault_at 0 w = false ->
  select_price_data (engine.ASSET c) 1 (db w) = r :: rest ->
  ge (latest_signal_of (engine.ASSET c) w) (engine.BUY_THRESHOLD c) = false ->
  le (latest_signal_of (engine.ASSET c) w) (engine.SELL_THRESHOLD c) = false ->
  engine.run c w
  = (Return tt,
     printed [HOLD_neutral (round (latest_signal_of (engine.ASSET c) w) 4)
                (engine.SELL_THRESHOLD c) (engine.BUY_THRESHOLD c)]
       (at_decision c w)).
Proof.
  intros H Hsel Hge Hle.
  rewrite (run_with_price w r rest H Hsel).
  unfold bind at 1. rewrite decision_hold by assumption. reflexivity.
Qed.

(** A trade that meets a storage fault leaves the database alone. *)
Lemma run_trade_fault (w : world) (r : price_row) (rest : list price_row) :
  fault_at 0 w = false ->
  select_price_data (engine.ASSET c) 1 (db w) = r :: rest ->
  fault_at 2 w = true ->
  fst (engine.run c w) = Return tt /\ db (snd (engine.run c w)) = db w.
Proof.
  intros H Hsel H2.
  rewrite (run_with_price w r rest H Hsel).
  unfold bind at 1 2.
  destruct (ge (latest_signal_of (engine.ASSET c) w) (engine.BUY_THRESHOLD c))
    eqn:Hge;
    [rewrite decision_buy by exact Hge
    |destruct (le (latest_signal_of (engine.ASSET c) w)
                  (engine.SELL_THRESHOLD c)) eqn:Hle;
     [rewrite decision_sell by assumption
     |rewrite decision_hold by assumption]];
    try (rewrite execute_fault
          by (try discriminate; rewrite fault_at_decision; exact H2));
    cbn [fst snd execute ret db printed set_stdout next_conn set_faults];
    rewrite db_at_decision; split; reflexivity.
Qed.

(** A run never touches the price and signal tables. *)
Lemma run_frame (w : world) :
  price_data (db (snd (engine.run c w))) = price_data (db w)
  /\ signals (db (snd (engine.run c w))) = signals (db w).
Proof.
  destruct (fault_at 0 w) eqn:H0.
  { rewrite run_fetch_fault by assumption. split; reflexivity. }
  destruct (select_price_data (engine.ASSET c) 1 (db w)) as [|r rest] eqn:Hsel.
  { rewrite run_no_price by assumption. split; reflexivity. }
  destruct (fault_at 2 w) eqn:H2.
  { destruct (run_trade_fault w r rest H0 Hsel H2) as [_ ->].
    split; reflexivity. }
  destruct (ge (latest_signal_of (engine.ASSET c) w) (engine.BUY_THRESHOLD c))
    eqn:Hge.
  { rewrite (run_buy w r rest) by assumption. split; reflexivity. }
  destruct (le (latest_signal_of (engine.ASSET c) w) (engine.SELL_THRESHOLD c))
    eqn:Hle.
  { rewrite (run_sell w r rest) by assumption. split; reflexivity. }
  rewrite (run_hold w r rest) by assumption.
  cbn [snd db printed set_stdout]. rewrite db_at_decision.
  split; reflexivity.
Qed.

End EngineRuns.

(** ** Claims about the Decision Engines *)

Lemma ge_Finite (q t : Q) : ge (Finite q) t = true <-> t <= q.
Proof. apply Qle_bool_iff. Qed.

Lemma le_Finite (q t : Q) : le (Finite q) t = true <-> q <= t.
Proof. apply Qle_bool_iff. Qed.

Lemma ge_Finite_false (q t : Q) : ge (Finite q) t = false <-> q < t.
Proof.
  simpl. split.
  - intros H. apply Qnot_le_lt. intros Hle.
    apply Qle_bool_iff in Hle. congruence.
  - intros H. destruct (Qle_bool t q) eqn:E; [|reflexivity].
    apply Qle_bool_iff in E. exfalso. apply (Qlt_not_le _ _ H E).
Qed.

Lemma le_Finite_false (q t : Q) : le (Finite q) t = false <-> t < q.
Proof.
  simpl. split.
  - intros H. apply Qnot_le_lt. intros Hle.
    apply Qle_bool_iff in Hle. congruence.
  - intros H. destruct (Qle_bool q t) eqn:E; [|reflexivity].
    apply Qle_bool_iff in E. exfalso. apply (Qlt_not_le _ _ H E).
Qed.

Lemma decision_rule_holds (c : engine.config) :
  decision_rule (engine.run c) c (engine.ASSET c)
    (engine.BUY_THRESHOLD c) (engine.SELL_THRESHOLD c)
    (engine.TRADE_QUANTITY c).
Proof.
  split.
  - intros q w0. unfold engine.decision.
    destruct (ge (Finite q) (engine.BUY_THRESHOLD c)) eqn:Hge.
    + pose proof (proj1 (ge_Finite _ _) Hge) as Hq.
      cbn [fst ret]. intuition (try discriminate; try lra).
    + pose proof (proj1 (ge_Finite_false _ _) Hge) as Hq.
      destruct (le (Finite q) (engine.SELL_THRESHOLD c)) eqn:Hle.
      * pose proof (proj1 (le_Finite _ _) Hle) as Hs.
        cbn [fst ret]. intuition (try discriminate; try lra).
      * pose proof (proj1 (le_Finite_false _ _) Hle) as Hs.
        cbn [fst ret bind print]. intuition (try discriminate; try lra).
  - intros w r rest q H0 Hsel Hs. cbv zeta. repeat split.
    + intros Hq H2. rewrite (run_buy c w r rest); try assumption.
      * reflexivity.
      * rewrite Hs. apply ge_Finite, Hq.
    + intros Hq Hq' H2. rewrite (run_sell c w r rest); try assumption.
      * reflexivity.
      * rewrite Hs. apply ge_Finite_false, Hq.
      * rewrite Hs. apply le_Finite, Hq'.
    + intros Hq Hq'. rewrite (run_hold c w r rest); try assumption.
      * cbn [snd db printed set_stdout]. apply db_at_decision.
      * rewrite Hs. apply ge_Finite_false, Hq.
      * rewrite Hs. apply le_Finite_false, Hq'.
Qed.

(** C2, as stated, fails: a run that found a price row and reads the
    signal 0.75 decides BUY, yet when the trade insert meets a storage
    fault no trade row is written; the run still returns normally and
    reports the trade as executed. *)
Lemma buy_decision_without_trade_row :
  let w := example.threshold_world [false; false; true] in
  let r := stock_engine.run_stock_engine w in
  select_price_data "AAPL" 1 (db w) = [example.aapl_row]
  /\ latest_signal_of "AAPL" w = Finite 0.75
  /\ fst (engine.decision stock_engine.config (Finite 0.75)
            (at_decision stock_engine.config w)) = Return BUY
  /\ fst r = Return tt
  /\ trade_history (db (snd r)) = []
  /\ stdout (snd r)
     = [Engine_Running "AAPL" 1700000100;
        Database_Error OperationalError;
        Error_inserting_trade_action OperationalError;
        TRADE_EXECUTED BUY 10 "AAPL" 120 (Finite (3 # 4))].
Proof.
  cbv zeta. repeat split.
Qed.

(** C2, amended.  Equity engine: thresholds 0.75 and 0.25, quantity 10;
    crypto engine: thresholds 0.80 and 0.20, quantity 0.01.  For a signal
    value [q] the action is BUY iff [q >= buy], SELL iff [q < buy] and
    [q <= sell], HOLD otherwise; a value equal to a threshold selects BUY
    resp. SELL.  A run that found a price row appends exactly one trade
    row, with that action, the configured quantity and the fetched price,
    on BUY and on SELL when the trade insert meets no storage fault, and
    leaves the database unchanged on HOLD.  When the trade insert meets a
    storage fault the error is caught inside [insert_trade_action]: the
    run returns normally and writes no row. *)
Theorem decision_rule_of_both_engines :
  decision_rule stock_engine.run_stock_engine stock_engine.config
    "AAPL" 0.75 0.25 10
  /\ decision_rule crypto_engine.run_crypto_engine crypto_engine.config
       "BTC" 0.80 0.20 0.01
  /\ (forall w0,
         fst (engine.decision stock_engine.config (Finite 0.75) w0) = Return BUY
         /\ fst (engine.decision stock_engine.config (Finite 0.25) w0)
            = Return SELL
         /\ fst (engine.decision crypto_engine.config (Finite 0.80) w0)
            = Return BUY
         /\ fst (engine.decision crypto_engine.config (Finite 0.20) w0)
            = Return SELL)
  /\ trade_fault_rule stock_engine.run_stock_engine "AAPL"
  /\ trade_fault_rule crypto_engine.run_crypto_engine "BTC".
Proof.
  split; [apply (decision_rule_holds stock_engine.config)|].
  split; [apply (decision_rule_holds crypto_engine.config)|].
  split; [intros w0; repeat split|].
  split; intros w r rest H0 Hsel H2.
  - exact (run_trade_fault stock_engine.config w r rest H0 Hsel H2).
  - exact (run_trade_fault crypto_engine.config w r rest H0 Hsel H2).
Qed.

Lemma decision_rule_of_both_engines_witness :
  let w := example.threshold_world [] in
  trade_history (db (snd (stock_engine.run_stock_engine w)))
  = trade_history (db w)
      ++ [trade_row_of "AAPL" 10 w example.aapl_row BUY].
Proof.
  refine (proj1 (proj2 (proj1 decision_rule_of_both_engines)
                   (example.threshold_world []) example.aapl_row [] 0.75
                   _ _ _) _ _).
  - reflexivity.
  - reflexivity.
  - reflexivity.
  - vm_compute. discriminate.
  - reflexivity.
Defined.

Lemma degrades_to_neutral_holds (c : engine.config) :
  ge (Finite 0.5) (engine.BUY_THRESHOLD c) = false ->
  le (Finite 0.5) (engine.SELL_THRESHOLD c) = false ->
  degrades_to_neutral (engine.run c) (engine.ASSET c)
    (engine.BUY_THRESHOLD c) (engine.SELL_THRESHOLD c).
Proof.
  intros Hge Hle. split.
  - intros w r rest H0 Hsel H1.
    assert (Hs : latest_signal_of (engine.ASSET c) w = Finite 0.5)
      by (unfold latest_signal_of; rewrite H1; reflexivity).
    split; [exact Hs|].
    rewrite (run_hold c w r rest) by (try assumption; rewrite Hs; assumption).
    rewrite Hs. unfold at_decision. rewrite H1.
    split; [reflexivity|]. split; [reflexivity|].
    cbn [snd stdout printed set_stdout next_conn set_faults started].
    rewrite <- !app_assoc. reflexivity.
  - intros w r rest H0 Hsel H1 Hnone.
    assert (Hs : latest_signal_of (engine.ASSET c) w = Finite 0.5)
      by (unfold latest_signal_of; rewrite H1, Hnone; reflexivity).
    split; [exact Hs|].
    rewrite (run_hold c w r rest) by (try assumption; rewrite Hs; assumption).
    rewrite Hs. unfold at_decision. rewrite H1.
    split; [reflexivity|]. split; [reflexivity|].
    cbn [snd stdout printed set_stdout next_conn set_faults started].
    rewrite <- !app_assoc. reflexivity.
Qed.

(** C6.  In both engines, when the signal lookup raises a storage error
    while a latest price exists, the run uses the neutral signal 0.5,
    returns normally, reaches the decision step and leaves the database as
    it was: the same (empty) change as a run that found no prior signal. *)
Theorem signal_lookup_failure_is_neutral :
  degrades_to_neutral stock_engine.run_stock_engine "AAPL" 0.75 0.25
  /\ degrades_to_neutral crypto_engine.run_crypto_engine "BTC" 0.80 0.20.
Proof.
  split.
  - apply (degrades_to_neutral_holds stock_engine.config); reflexivity.
  - apply (degrades_to_neutral_holds crypto_engine.config); reflexivity.
Qed.

Lemma signal_lookup_failure_is_neutral_witness :
  let w := example.threshold_world [false; true] in
  latest_signal_of "AAPL" w = Finite 0.5
  /\ fst (stock_engine.run_stock_engine w) = Return tt
  /\ db (snd (stock_engine.run_stock_engine w)) = db w
  /\ stdout (snd (stock_engine.run_stock_engine w))
     = stdout w ++ [Engine_Running "AAPL" (clock w);
                    Database_Error OperationalError;
                    ERROR_Could_not_fetch_signal OperationalError;
                    HOLD_neutral (Finite (1 # 2)) 0.25 0.75].
Proof.
  apply (proj1 (proj1 signal_lookup_failure_is_neutral)
           (example.threshold_world [false; true]) example.aapl_row []);
    reflexivity.
Defined.

Lemma skips_without_price_holds (c : engine.config) :
  skips_without_price (engine.run c) (engine.ASSET c).
Proof.
  intros w Hrows.
  assert (Hsel : select_price_data (engine.ASSET c) 1 (db w) = []).
  { unfold select_price_data. fold (rows_of (engine.ASSET c) (db w)).
    rewrite Hrows. reflexivity. }
  split.
  - destruct (fault_at 0 w) eqn:H0.
    + rewrite run_fetch_fault by assumption. reflexivity.
    + rewrite run_no_price by assumption. reflexivity.
  - intros H0. rewrite run_no_price by assumption.
    split; [reflexivity|].
    cbn [snd stdout printed set_stdout next_conn set_faults started].
    rewrite <- app_assoc. reflexivity.
Qed.

(** C7.  In both engines, when the asset has no price row the run writes
    nothing: the database is unchanged (no trade row, no HOLD record), and
    when the price fetch itself succeeds the run returns normally after
    printing that no price data was found. *)
Theorem no_price_no_state_change :
  skips_without_price stock_engine.run_stock_engine "AAPL"
  /\ skips_without_price crypto_engine.run_crypto_engine "BTC".
Proof.
  split.
  - apply (skips_without_price_holds stock_engine.config).
  - apply (skips_without_price_holds crypto_engine.config).
Qed.

Lemma no_price_no_state_change_witness :
  let w := example.empty_world in
  db (snd (stock_engine.run_stock_engine w)) = db w
  /\ (fault_at 0 w = false ->
      fst (stock_engine.run_stock_engine w) = Return tt
      /\ stdout (snd (stock_engine.run_stock_engine w))
         = stdout w ++ [Engine_Running "AAPL" (clock w);
                        HOLD_No_price_data "AAPL"]).
Proof.
  apply (proj1 no_price_no_state_change example.empty_world).
  reflexivity.
Defined.

(** ** The price table keeps one row per key *)

Lemma same_key_iff (asset : string) (t : Z) (r : price_row) :
  same_key asset t r = true <-> key r = (asset, t).
Proof.
  unfold same_key, key. rewrite andb_true_iff, String.eqb_eq, Z.eqb_eq.
  split; [intros [-> ->]; reflexivity | intros H; inversion H; auto].
Qed.

Lemma NoDup_map_filter {A B} (g : A -> B) (f : A -> bool) (l : list A) :
  NoDup (map g l) -> NoDup (map g (filter f l)).
Proof.
  induction l as [|x l IH]; simpl; intros H; [constructor|].
  inversion H as [|? ? Hnotin Hnodup]; subst.
  destruct (f x); simpl; [constructor|]; auto.
  intros Hin. apply Hnotin.
  apply in_map_iff in Hin. destruct Hin as [y [Hy Hin]].
  apply filter_In in Hin. apply in_map_iff. exists y. tauto.
Qed.

Lemma insert_or_replace_unique (asset : string) (t : Z) (p : Q) (d : database) :
  unique_keys d -> unique_keys (insert_or_replace_price_data asset t p d).
Proof.
  unfold unique_keys, insert_or_replace_price_data. simpl. intros H.
  rewrite map_app. apply NoDup_app.
  - apply NoDup_map_filter, H.
  - simpl. constructor; [intros []|constructor].
  - intros k Hin [Hk|[]]. subst k.
    apply in_map_iff in Hin. destruct Hin as [r [Hr Hin]].
    apply filter_In in Hin. destruct Hin as [_ Hneg].
    change (key r = (asset, t)) in Hr.
    apply same_key_iff in Hr. rewrite Hr in Hneg. discriminate.
Qed.

Lemma filter_filter_neg {A} (f : A -> bool) (l : list A) :
  filter f (filter (fun x => negb (f x)) l) = [].
Proof.
  induction l as [|x l IH]; simpl; [reflexivity|].
  destruct (f x) eqn:E; simpl; [exact IH|]. rewrite E. exact IH.
Qed.

Lemma same_key_new (id : Z) (asset : string) (t : Z) (p : Q) :
  same_key asset t (mk_price_row id asset t p) = true.
Proof. apply same_key_iff. reflexivity. Qed.

(** After the statement the key holds the new row and nothing else. *)
Lemma insert_or_replace_rows_at (asset : string) (t : Z) (p : Q) (d : database) :
  rows_at asset t (insert_or_replace_price_data asset t p d)
  = [mk_price_row (price_data_seq d + 1) asset t p].
Proof.
  unfold rows_at, insert_or_replace_price_data. cbn [price_data].
  rewrite filter_app, filter_filter_neg. cbn [filter app].
  rewrite same_key_new. reflexivity.
Qed.

Lemma filter_idem {A} (f : A -> bool) (l : list A) :
  filter f (filter f l) = filter f l.
Proof.
  induction l as [|x l IH]; simpl; [reflexivity|].
  destruct (f x) eqn:E; simpl; [rewrite E, IH; reflexivity | exact IH].
Qed.

(** Rows under other keys stay, in their order. *)
Lemma insert_or_replace_other_rows
      (asset : string) (t : Z) (p : Q) (d : database) :
  filter (fun r => negb (same_key asset t r))
    (price_data (insert_or_replace_price_data asset t p d))
  = filter (fun r => negb (same_key asset t r)) (price_data d).
Proof.
  unfold insert_or_replace_price_data. cbn [price_data].
  rewrite filter_app, filter_idem. cbn [filter].
  rewrite same_key_new. cbn [negb]. apply app_nil_r.
Qed.

Lemma unique_key_one_row (asset : string) (t : Z) (l : list price_row) :
  NoDup (map key l) ->
  (exists r, In r l /\ key r = (asset, t)) ->
  List.length (filter (same_key asset t) l) = 1%nat.
Proof.
  induction l as [|x l IH]; simpl; intros Hnd [r [Hin Hk]]; [contradiction|].
  inversion Hnd as [|? ? Hnotin Hnd']; subst.
  destruct (same_key asset t x) eqn:E.
  - simpl. f_equal.
    apply same_key_iff in E.
    destruct (filter (same_key asset t) l) as [|y ys] eqn:Hf; [reflexivity|].
    exfalso. apply Hnotin.
    assert (Hy : In y (filter (same_key asset t) l))
      by (rewrite Hf; left; reflexivity).
    apply filter_In in Hy. destruct Hy as [Hy1 Hy2].
    apply same_key_iff in Hy2. rewrite E, <- Hy2.
    apply in_map, Hy1.
  - apply IH; [exact Hnd'|]. exists r. split; [|exact Hk].
    destruct Hin as [->|Hin]; [|exact Hin].
    apply same_key_iff in Hk. congruence.
Qed.

(** Replacing a present key does not change the number of rows. *)
Lemma insert_or_replace_length (asset : string) (t : Z) (p : Q) (d : database) :
  unique_keys d ->
  (exists r, In r (price_data d) /\ key r = (asset, t)) ->
  List.length (price_data (insert_or_replace_price_data asset t p d))
  = List.length (price_data d).
Proof.
  intros Hu Hex. unfold insert_or_replace_price_data. simpl.
  rewrite length_app. simpl.
  pose proof (filter_length (same_key asset t) (price_data d)) as Hlen.
  rewrite (unique_key_one_row asset t _ Hu Hex) in Hlen. lia.
Qed.

(** *** Every operation of the system preserves the constraint *)

Lemma preserves_ret {A} (a : A) : preserves (ret a).
Proof. intros w H. exact H. Qed.

Lemma preserves_lift {A} (r : result A) : preserves (lift r).
Proof. intros w H. exact H. Qed.

Lemma preserves_print (l : line) : preserves (print l).
Proof. intros w H. exact H. Qed.

Lemma preserves_time_time : preserves time_time.
Proof. intros w H. exact H. Qed.

Lemma preserves_bind {A B} (m : M A) (k : A -> M B) :
  preserves m -> (forall a, preserves (k a)) -> preserves (bind m k).
Proof.
  intros Hm Hk w H. unfold bind. specialize (Hm w H).
  destruct (m w) as [[a|e] w']; simpl in *; [apply Hk, Hm | exact Hm].
Qed.

Lemma preserves_try_except {A} (m : M A) (h : exn -> M A) :
  preserves m -> (forall e, preserves (h e)) -> preserves (try_except m h).
Proof.
  intros Hm Hh w H. unfold try_except. specialize (Hm w H).
  destruct (m w) as [[a|e] w']; simpl in *; [exact Hm | apply Hh, Hm].
Qed.

Lemma preserves_for_each {A} (xs : list A) (body : A -> M unit) :
  (forall x, preserves (body x)) -> preserves (for_each xs body).
Proof.
  intros Hb. induction xs as [|x xs IH]; simpl.
  - apply preserves_ret.
  - apply preserves_bind; [apply Hb | intros _; exact IH].
Qed.

Lemma preserves_get_db_connection {A}
      (body : database -> result A * database) :
  (forall d, unique_keys d -> unique_keys (snd (body d))) ->
  preserves (get_db_connection body).
Proof.
  intros Hb w H. unfold get_db_connection.
  destruct (faults w) as [|[|] fs]; simpl; try exact H;
    specialize (Hb (db w) H);
    destruct (body (db w)) as [[a|e] d']; simpl in *; try exact Hb;
    destruct (is_sqlite3_Error e); exact H.
Qed.

Lemma preserves_insert_price_data (asset : string) (t : Z) (p : Q) :
  preserves (insert_price_data asset t p).
Proof.
  apply preserves_try_except; [|intros e; apply preserves_print].
  apply preserves_get_db_connection. intros d H.
  apply insert_or_replace_unique, H.
Qed.

Lemma preserves_insert_signal (asset : string) (t : Z) (v : float64)
      (a b : option float64) :
  preserves (insert_signal asset t v a b).
Proof.
  apply preserves_try_except; [|intros e; apply preserves_print].
  apply preserves_get_db_connection. intros d H.
  unfold insert_into_signals. destruct (bind_double v); exact H.
Qed.

Lemma preserves_insert_trade_action (asset : string) (t : Z) (a : action)
      (quantity price : Q) :
  preserves (insert_trade_action asset t a quantity price).
Proof.
  apply preserves_try_except; [|intros e; apply preserves_print].
  apply preserves_get_db_connection. intros d H. exact H.
Qed.

Lemma preserves_fetch_latest_data (asset : string) (limit : nat) :
  preserves (fetch_latest_data asset limit).
Proof. apply preserves_get_db_connection. intros d H. exact H. Qed.

Create HintDb preserve.
#[local] Hint Resolve preserves_ret preserves_lift preserves_print
  preserves_time_time preserves_insert_price_data preserves_insert_signal
  preserves_insert_trade_action preserves_fetch_latest_data : preserve.

Ltac preserve :=
  repeat first
    [ solve [auto with preserve]
    | apply preserves_bind; [|intros ?]
    | apply preserves_try_except; [|intros ?]
    | apply preserves_for_each; intros ?
    | apply preserves_get_db_connection; intros ? ?; assumption
    | match goal with
      | |- preserves (if ?b then _ else _) => destruct b
      | |- preserves (match ?x with _ => _ end) => destruct x
      end ].

Lemma preserves_generate_signals (asset : string) :
  preserves (generate_signals asset).
Proof. unfold generate_signals. preserve. Qed.

Lemma preserves_update_brain : preserves update_brain.
Proof.
  unfold update_brain.
  apply preserves_bind; [apply preserves_print | intros _].
  apply preserves_for_each. exact preserves_generate_signals.
Qed.

Lemma preserves_engine_run (c : engine.config) : preserves (engine.run c).
Proof. unfold engine.run, engine.fetch_signal, engine.decision. preserve. Qed.

Lemma preserves_fetch_and_store_data (u : string -> Q) :
  preserves (data_feeder.fetch_and_store_data u).
Proof.
  unfold data_feeder.fetch_and_store_data. preserve;
    intros w H; exact H.
Qed.

Lemma reachable_unique_keys (w : world) : reachable w -> unique_keys (db w).
Proof.
  induction 1 as [now fs | w now fs _ IH | w u _ IH | w _ IH | w _ IH
                 | w _ IH | w asset t p _ IH].
  - constructor.
  - exact IH.
  - apply preserves_fetch_and_store_data, IH.
  - apply preserves_update_brain, IH.
  - apply (preserves_engine_run stock_engine.config), IH.
  - apply (preserves_engine_run crypto_engine.config), IH.
  - apply preserves_insert_price_data, IH.
Qed.

(** C8.  A price insert whose [(asset, timestamp)] key is already present
    and that is not hit by a storage fault leaves exactly one row under
    the key, holding the new price; the number of rows does not grow and
    the rows under other keys are kept.  The table never holds two rows
    with the same key: the property holds in every reachable world and is
    preserved by every price insert. *)
Theorem price_insert_replaces
        (w : world) (asset : string) (t : Z) (p : Q) (old : price_row) :
  (fault_at 0 w = false ->
   In old (price_data (db w)) -> key old = (asset, t) ->
   let d' := db (snd (insert_price_data asset t p w)) in
   rows_at asset t d' = [mk_price_row (price_data_seq (db w) + 1) asset t p]
   /\ filter (fun r => negb (same_key asset t r)) (price_data d')
      = filter (fun r => negb (same_key asset t r)) (price_data (db w))
   /\ (unique_keys (db w) ->
       List.length (price_data d') = List.length (price_data (db w))))
  /\ (unique_keys (db w) ->
      unique_keys (db (snd (insert_price_data asset t p w))))
  /\ (reachable w -> unique_keys (db w)).
Proof.
  split; [|split].
  - intros H0 Hin Hkey. cbv zeta.
    rewrite insert_price_data_ok by exact H0.
    cbn [snd db set_db].
    split; [apply insert_or_replace_rows_at|].
    split; [apply insert_or_replace_other_rows|].
    intros Hu. apply insert_or_replace_length; [exact Hu|].
    exists old. split; assumption.
  - apply preserves_insert_price_data.
  - apply reachable_unique_keys.
Qed.

Lemma price_insert_replaces_witness :
  let w := example.threshold_world [] in
  let d' := db (snd (insert_price_data "AAPL" 1700000000 121.5 w)) in
  rows_at "AAPL" 1700000000 d'
  = [mk_price_row (price_data_seq (db w) + 1) "AAPL" 1700000000 121.5]
  /\ filter (fun r => negb (same_key "AAPL" 1700000000 r)) (price_data d')
     = filter (fun r => negb (same_key "AAPL" 1700000000 r))
         (price_data (db w))
  /\ (unique_keys (db w) ->
      List.length (price_data d') = List.length (price_data (db w))).
Proof.
  apply (proj1 (price_insert_replaces (example.threshold_world [])
                  "AAPL" 1700000000 121.5 example.aapl_row)).
  - reflexivity.
  - left. reflexivity.
  - reflexivity.
Defined.

(** ** Storage errors during inserts *)


Lemma never_raises_print (l : line) : never_raises (print l).
Proof. intros w. exists tt. reflexivity. Qed.

Lemma never_raises_bind {A B} (m : M A) (k : A -> M B) :
  never_raises m -> (forall a, never_raises (k a)) -> never_raises (bind m k).
Proof.
  intros Hm Hk w. unfold bind. destruct (Hm w) as [a Ha].
  destruct (m w) as [[a'|e] w']; simpl in Ha; [|discriminate].
  apply Hk.
Qed.

Lemma never_raises_try_except {A} (m : M A) (h : exn -> M A) :
  (forall e, never_raises (h e)) -> never_raises (try_except m h).
Proof.
  intros Hh w. unfold try_except.
  destruct (m w) as [[a|e] w']; [exists a; reflexivity | apply Hh].
Qed.

Lemma never_raises_for_each {A} (xs : list A) (body : A -> M unit) :
  (forall x, never_raises (body x)) -> never_raises (for_each xs body).
Proof.
  intros Hb. induction xs as [|x xs IH]; simpl.
  - intros w. exists tt. reflexivity.
  - apply never_raises_bind; [apply Hb | intros _; exact IH].
Qed.

Lemma fetch_and_store_data_never_raises (u : string -> Q) :
  never_raises (data_feeder.fetch_and_store_data u).
Proof.
  unfold data_feeder.fetch_and_store_data.
  apply never_raises_bind; [intros w; exists (clock w); reflexivity|].
  intros now. apply never_raises_bind; [apply never_raises_print|].
  intros _. apply never_raises_for_each. intros asset.
  apply never_raises_try_except. intros e. apply never_raises_print.
Qed.



(** * Further properties of the store, the engines and the dashboard *)

(** ** [ORDER BY timestamp DESC] *)

Lemma In_skipn_list {A} (n : nat) (l : list A) (x : A) :
  In x (skipn n l) -> In x l.
Proof.
  intros H. rewrite <- (firstn_skipn n l). apply in_or_app. right. exact H.
Qed.

Lemma In_firstn_list {A} (n : nat) (l : list A) (x : A) :
  In x (firstn n l) -> In x l.
Proof.
  intros H. rewrite <- (firstn_skipn n l). apply in_or_app. left. exact H.
Qed.

Section NewestFirst.
Context {A : Type} (key : A -> Z).

Lemma insert_sorted_newest_first (x : A) (l : list A) :
  StronglySorted (fun a b => (key b <= key a)%Z) l ->
  StronglySorted (fun a b => (key b <= key a)%Z)
    (insert_sorted (fun a b => (key b <=? key a)%Z) x l).
Proof.
  induction l as [|y l IH]; simpl; intros Hs.
  - constructor; constructor.
  - inversion Hs as [|? ? Hs' Hall]; subst.
    destruct (key y <=? key x)%Z eqn:E.
    + apply Z.leb_le in E. constructor; [exact Hs|].
      constructor; [exact E|].
      eapply Forall_impl; [|exact Hall]. intros z Hz. simpl in Hz. lia.
    + apply Z.leb_gt in E. constructor; [apply IH, Hs'|].
      apply Forall_forall. intros z Hz.
      apply (Permutation_in _ (insert_sorted_perm _ x l)) in Hz.
      destruct Hz as [->|Hz]; [lia|].
      rewrite Forall_forall in Hall. apply Hall, Hz.
Qed.

Lemma sort_newest_first (l : list A) :
  StronglySorted (fun a b => (key b <= key a)%Z)
    (sort (fun a b => (key b <=? key a)%Z) l).
Proof.
  induction l as [|x l IH]; simpl.
  - constructor.
  - apply insert_sorted_newest_first, IH.
Qed.

Lemma sort_In (leb : A -> A -> bool) (x : A) (l : list A) :
  In x (sort leb l) <-> In x l.
Proof.
  split; apply Permutation_in;
    [apply sort_perm | apply Permutation_sym, sort_perm].
Qed.

(** The head of the sorted list has the greatest key. *)
Lemma sort_head_newest (l : list A) (x : A) (rest : list A) :
  sort (fun a b => (key b <=? key a)%Z) l = x :: rest ->
  forall y, In y l -> (key y <= key x)%Z.
Proof.
  intros Hsort y Hy.
  pose proof (sort_newest_first l) as Hs. rewrite Hsort in Hs.
  apply (sort_In (fun a b => (key b <=? key a)%Z)) in Hy.
  rewrite Hsort in Hy. inversion Hs as [|? ? _ Hall]; subst.
  destruct Hy as [->|Hy]; [lia|].
  rewrite Forall_forall in Hall. apply Hall, Hy.
Qed.

(** An element that is strictly newer than every other one comes first. *)
Lemma sort_strictly_newest_first (l : list A) (x : A) :
  In x l ->
  (forall y, In y l -> y = x \/ (key y < key x)%Z) ->
  hd_error (sort (fun a b => (key b <=? key a)%Z) l) = Some x.
Proof.
  intros Hx Hmax.
  destruct (sort (fun a b => (key b <=? key a)%Z) l) as [|h rest] eqn:Hsort.
  - apply (sort_In (fun a b => (key b <=? key a)%Z)) in Hx.
    rewrite Hsort in Hx. contradiction.
  - simpl. f_equal.
    assert (Hh : In h l).
    { apply (sort_In (fun a b => (key b <=? key a)%Z)).
      rewrite Hsort. left. reflexivity. }
    pose proof (sort_head_newest l h rest Hsort x Hx) as Hle.
    destruct (Hmax h Hh) as [->|Hlt]; [reflexivity | lia].
Qed.

(** What [LIMIT n] cuts off is not newer than what it keeps. *)
Lemma firstn_sorted_newest (n : nat) (l : list A) (x y : A) :
  StronglySorted (fun a b => (key b <= key a)%Z) l ->
  In x (firstn n l) -> In y (skipn n l) -> (key y <= key x)%Z.
Proof.
  revert l. induction n as [|n IH]; intros l Hs Hx Hy; simpl in *.
  - contradiction.
  - destruct l as [|h l]; [contradiction|].
    inversion Hs as [|? ? Hs' Hall]; subst.
    destruct Hx as [->|Hx].
    + rewrite Forall_forall in Hall. apply Hall.
      apply (In_skipn_list n l y Hy).
    + apply (IH l); assumption.
Qed.
End NewestFirst.

(** ** Reading prices back *)

(** X1.  A price fetch that meets no storage fault leaves the database
    alone and returns [min limit n] of the asset's [n] rows, all of them
    stored rows of that asset, newest first; no row it leaves out is newer
    than a row it returns. *)
Theorem fetch_latest_data_newest_first
        (asset : string) (limit : nat) (w : world) :
  fault_at 0 w = false ->
  exists data,
    fst (fetch_latest_data asset limit w) = Return data
    /\ db (snd (fetch_latest_data asset limit w)) = db w
    /\ List.length data = Nat.min limit (List.length (rows_of asset (db w)))
    /\ (forall r, In r data ->
                  In r (price_data (db w)) /\ p_asset r = asset)
    /\ StronglySorted (fun a b => (p_timestamp b <= p_timestamp a)%Z) data
    /\ (forall r r',
           In r data -> In r' (rows_of asset (db w)) -> ~ In r' data ->
           (p_timestamp r' <= p_timestamp r)%Z).
Proof.
  intros H0. exists (select_price_data asset limit (db w)).
  rewrite fetch_latest_data_ok by exact H0.
  split; [reflexivity|]. split; [reflexivity|].
  split; [apply select_price_data_length|].
  unfold select_price_data. fold (rows_of asset (db w)).
  set (sorted := sort (fun a b => (p_timestamp b <=? p_timestamp a)%Z)
                   (rows_of asset (db w))).
  assert (Hs : StronglySorted
                 (fun a b => (p_timestamp b <= p_timestamp a)%Z) sorted)
    by apply (sort_newest_first p_timestamp).
  split; [|split].
  - intros r Hr. apply In_firstn_list in Hr.
    apply sort_In in Hr. unfold rows_of in Hr.
    apply filter_In in Hr. destruct Hr as [Hin Heq].
    apply String.eqb_eq in Heq. split; assumption.
  - clear -Hs. revert limit. induction Hs as [|x l Hs IH Hall]; intros limit.
    + rewrite firstn_nil. constructor.
    + destruct limit as [|n]; simpl; constructor; [apply IH|].
      rewrite Forall_forall in *. intros y Hy.
      apply Hall. apply (In_firstn_list n l y Hy).
  - intros r r' Hr Hr' Hnot.
    apply (firstn_sorted_newest p_timestamp limit sorted r r' Hs Hr).
    apply (sort_In (fun a b => (p_timestamp b <=? p_timestamp a)%Z)) in Hr'.
    fold sorted in Hr'. rewrite <- (firstn_skipn limit sorted) in Hr'.
    apply in_app_or in Hr'. destruct Hr' as [Hin|Hin]; [contradiction|].
    exact Hin.
Qed.

Lemma fetch_latest_data_newest_first_witness :
  exists data,
    fst (fetch_latest_data "AAPL" 3 example.rising_world) = Return data
    /\ db (snd (fetch_latest_data "AAPL" 3 example.rising_world))
       = db example.rising_world
    /\ List.length data
       = Nat.min 3 (List.length (rows_of "AAPL" (db example.rising_world)))
    /\ (forall r, In r data ->
                  In r (price_data (db example.rising_world))
                  /\ p_asset r = "AAPL"%string)
    /\ StronglySorted (fun a b => (p_timestamp b <= p_timestamp a)%Z) data
    /\ (forall r r',
           In r data -> In r' (rows_of "AAPL" (db example.rising_world)) ->
           ~ In r' data -> (p_timestamp r' <= p_timestamp r)%Z).
Proof.
  apply (fetch_latest_data_newest_first "AAPL" 3 example.rising_world).
  reflexivity.
Defined.

Lemma hd_error_firstn_1 {A} (l : list A) (x : A) :
  hd_error l = Some x -> firstn 1 l = [x].
Proof. destruct l as [|y l]; simpl; intros H; inversion H; reflexivity. Qed.

(** After the statement, the new row is the newest row of its asset when
    no other row of the asset was newer than it. *)
Lemma insert_or_replace_latest (asset : string) (t : Z) (p : Q) (d : database) :
  (forall r, In r (rows_of asset d) -> (p_timestamp r <= t)%Z) ->
  select_latest_price asset (insert_or_replace_price_data asset t p d)
  = Some (mk_price_row (price_data_seq d + 1) asset t p).
Proof.
  intros Hmax. unfold select_latest_price.
  apply (sort_strictly_newest_first p_timestamp).
  - apply filter_In. split.
    + unfold insert_or_replace_price_data. cbn [price_data].
      apply in_or_app. right. left. reflexivity.
    + apply String.eqb_refl.
  - intros y Hy. apply filter_In in Hy. destruct Hy as [Hin Hasset].
    unfold insert_or_replace_price_data in Hin. cbn [price_data] in Hin.
    apply in_app_or in Hin. destruct Hin as [Hin|[<-|[]]]; [|left; reflexivity].
    right. apply filter_In in Hin. destruct Hin as [Hin Hneg].
    assert (Hle : (p_timestamp y <= t)%Z).
    { apply Hmax. unfold rows_of. apply filter_In. split; assumption. }
    unfold same_key in Hneg. rewrite Hasset in Hneg. cbn [andb negb] in Hneg.
    apply negb_true_iff, Z.eqb_neq in Hneg. cbn [p_timestamp]. lia.
Qed.

(** X2.  Round trip: a price inserted at a timestamp that fits a signed
    64-bit integer and that no stored row of the asset exceeds is what the
    next fetch of the latest row returns (no storage fault on either
    connection), with the price as given. *)
Theorem price_round_trip (asset : string) (t : Z) (p : Q) (w : world) :
  in_int64 t ->
  fault_at 0 w = false -> fault_at 1 w = false ->
  (forall r, In r (rows_of asset (db w)) -> (p_timestamp r <= t)%Z) ->
  fst ((insert_price_data asset t p ;;; fetch_latest_data asset 1) w)
  = Return [mk_price_row (price_data_seq (db w) + 1) asset t p].
Proof.
  intros _ H0 H1 Hmax. unfold bind.
  rewrite insert_price_data_ok by exact H0.
  rewrite fetch_latest_data_ok
    by (rewrite fault_at_set_db, fault_at_next; exact H1).
  cbn [fst db set_db]. f_equal.
  unfold select_price_data. apply hd_error_firstn_1.
  apply (insert_or_replace_latest asset t p (db w) Hmax).
Qed.

Lemma price_round_trip_witness :
  fst ((insert_price_data "AAPL" 1700000100 170.1234 ;;;
        fetch_latest_data "AAPL" 1) example.rising_world)
  = Return [mk_price_row
              (price_data_seq (db example.rising_world) + 1)
              "AAPL" 1700000100 170.1234].
Proof.
  apply (price_round_trip "AAPL" 1700000100 170.1234 example.rising_world).
  - unfold in_int64. lia.
  - reflexivity.
  - reflexivity.
  - intros r Hr. vm_compute in Hr.
    repeat (destruct Hr as [<-|Hr]; [vm_compute; discriminate|]).
    contradiction.
Defined.

(** ** Rounding to four places *)

Lemma rint_cases (x : Q) :
  (rint x = Qfloor x /\ x - inject_Z (Qfloor x) <= 0.5)
  \/ (rint x = (Qfloor x + 1)%Z /\ 0.5 <= x - inject_Z (Qfloor x)).
Proof.
  unfold rint.
  destruct (Qcompare_spec (x - inject_Z (Qfloor x)) 0.5) as [E|L|G].
  - destruct (Z.even (Qfloor x)); [left|right]; split;
      try reflexivity; rewrite E; apply Qle_refl.
  - left. split; [reflexivity | apply Qlt_le_weak, L].
  - right. split; [reflexivity | apply Qlt_le_weak, G].
Qed.

(** The nearest integer is at most one half away. *)
Lemma rint_error (x : Q) :
  x - 0.5 <= inject_Z (rint x) <= x + 0.5.
Proof.
  pose proof (Qfloor_le x) as Hlo. pose proof (Qlt_floor x) as Hhi.
  rewrite inject_Z_plus in Hhi. change (inject_Z 1) with 1 in Hhi.
  destruct (rint_cases x) as [[-> H]|[-> H]].
  - lra.
  - rewrite inject_Z_plus. change (inject_Z 1) with 1. lra.
Qed.

Lemma rint_monotone (x y : Q) : x <= y -> (rint x <= rint y)%Z.
Proof.
  intros Hxy.
  pose proof (Qfloor_resp_le x y Hxy) as Hf.
  destruct (Z.eq_dec (Qfloor x) (Qfloor y)) as [E|NE].
  - unfold rint. rewrite E.
    destruct (Qcompare_spec (x - inject_Z (Qfloor y)) 0.5) as [Ex|Lx|Gx];
      destruct (Qcompare_spec (y - inject_Z (Qfloor y)) 0.5) as [Ey|Ly|Gy];
      try destruct (Z.even (Qfloor y)); try lia; exfalso; lra.
  - destruct (rint_cases x) as [[-> _]|[-> _]];
      destruct (rint_cases y) as [[-> _]|[-> _]]; lia.
Qed.

Lemma round_q_4_value (x : Q) :
  round_q x 4 == inject_Z (rint (x * 10000)) / 10000.
Proof. unfold round_q. rewrite Qred_correct. reflexivity. Qed.

Lemma round_q_4_error (x : Q) :
  -(0.00005) <= round_q x 4 - x <= 0.00005.
Proof.
  rewrite round_q_4_value.
  pose proof (rint_error (x * 10000)) as H.
  set (z := inject_Z (rint (x * 10000))) in *.
  qconst. lra.
Qed.

Lemma round_q_4_monotone (x y : Q) : x <= y -> round_q x 4 <= round_q y 4.
Proof.
  intros Hxy. rewrite !round_q_4_value.
  assert (Hz : inject_Z (rint (x * 10000)) <= inject_Z (rint (y * 10000))).
  { rewrite <- Zle_Qle. apply rint_monotone. lra. }
  set (zx := inject_Z (rint (x * 10000))) in *.
  set (zy := inject_Z (rint (y * 10000))) in *.
  qconst. lra.
Qed.

(** X3.  The value handed to [insert_signal] is the computed signal
    rounded to four places (lines 59 and 65).  For any two averages and
    any latest price other than 0 that rounded value is a number within
    0.00005 of the formula's value, and it lies in the unit interval. *)
Theorem rounded_signal_error (a b p : Q) :
  ~ p == 0 ->
  exists v,
    round (signal_value (Finite a) (Finite b) p) 4 = Finite v
    /\ -(0.00005) <= v - spec.signal a b p <= 0.00005
    /\ 0 <= v <= 1.
Proof.
  intros Hp.
  destruct (signal_value_formula a b p Hp) as [v [Hv Hspec]].
  pose proof (signal_value_range (Finite a) (Finite b) p) as Hrange.
  rewrite Hv in Hrange. rewrite Hv.
  exists (round_q v 4). split; [reflexivity|]. split.
  - rewrite <- Hspec. apply round_q_4_error.
  - apply round_q_4_unit, Hrange.
Qed.

Lemma rounded_signal_error_witness :
  exists v,
    round (signal_value (Finite 100.5) (Finite 100.2) 110) 4 = Finite v
    /\ -(0.00005) <= v - spec.signal 100.5 100.2 110 <= 0.00005
    /\ 0 <= v <= 1.
Proof.
  apply (rounded_signal_error 100.5 100.2 110).
  vm_compute. discriminate.
Defined.

(** ** Direction and strength of the signal *)

Lemma clamp_monotone (x y : Q) :
  x <= y -> spec.clamp x (-(1)) 1 <= spec.clamp y (-(1)) 1.
Proof.
  intros Hxy. unfold spec.clamp.
  destruct (Qle_bool x (-(1))) eqn:X1; destruct (Qle_bool y (-(1))) eqn:Y1;
    destruct (Qle_bool 1 x) eqn:X2; destruct (Qle_bool 1 y) eqn:Y2;
    try apply Qle_bool_iff in X1; try apply Qle_bool_iff in Y1;
    try apply Qle_bool_iff in X2; try apply Qle_bool_iff in Y2;
    try lra;
    try (assert (~ x <= -(1)) by (intros F; apply Qle_bool_iff in F; congruence));
    try (assert (~ y <= -(1)) by (intros F; apply Qle_bool_iff in F; congruence));
    try (assert (~ 1 <= x) by (intros F; apply Qle_bool_iff in F; congruence));
    try (assert (~ 1 <= y) by (intros F; apply Qle_bool_iff in F; congruence));
    lra.
Qed.

Lemma clamp_sign (x : Q) :
  (0 < x -> 0 < spec.clamp x (-(1)) 1)
  /\ (x < 0 -> spec.clamp x (-(1)) 1 < 0).
Proof.
  unfold spec.clamp.
  destruct (Qle_bool x (-(1))) eqn:X1; destruct (Qle_bool 1 x) eqn:X2;
    try apply Qle_bool_iff in X1; try apply Qle_bool_iff in X2;
    split; intros H; lra.
Qed.

(** For a positive price the scaled spread grows with the spread. *)
Lemma scaled_spread_monotone (a b a' b' p : Q) :
  0 < p -> a - b <= a' - b' ->
  spec.diff_pct a b p / 0.01 <= spec.diff_pct a' b' p / 0.01.
Proof.
  intros Hp Hd. unfold spec.diff_pct.
  pose proof (Qinv_lt_0_compat p Hp) as Hy.
  unfold Qdiv. set (y := / p) in *. qconst. nra.
Qed.

Lemma scaled_spread_sign (a b p : Q) :
  0 < p ->
  (b < a -> 0 < spec.diff_pct a b p / 0.01)
  /\ (a < b -> spec.diff_pct a b p / 0.01 < 0).
Proof.
  intros Hp. unfold spec.diff_pct.
  pose proof (Qinv_lt_0_compat p Hp) as Hy.
  unfold Qdiv. set (y := / p) in *. qconst. split; intros H; nra.
Qed.

(** X4.  For a positive latest price the signal follows the crossover as
    the docstring of [generate_signals] says: above 0.5 when the short
    average is above the long one, below 0.5 when it is below, and never
    weaker for a wider spread; the stored (rounded) values keep this order,
    non-strictly. *)
Theorem signal_follows_crossover (a b a' b' p : Q) :
  0 < p ->
  exists v v',
    signal_value (Finite a) (Finite b) p = Finite v
    /\ signal_value (Finite a') (Finite b') p = Finite v'
    /\ (b < a -> 0.5 < v /\ 0.5 <= round_q v 4)
    /\ (a < b -> v < 0.5 /\ round_q v 4 <= 0.5)
    /\ (a - b <= a' - b' -> v <= v' /\ round_q v 4 <= round_q v' 4).
Proof.
  intros Hp.
  assert (Hp0 : ~ p == 0) by lra.
  destruct (signal_value_formula a b p Hp0) as [v [Hv Hs]].
  destruct (signal_value_formula a' b' p Hp0) as [v' [Hv' Hs']].
  exists v, v'. split; [exact Hv|]. split; [exact Hv'|].
  assert (Hhalf : round_q 0.5 4 == 0.5) by (vm_compute; reflexivity).
  destruct (scaled_spread_sign a b p Hp) as [Hpos Hneg].
  destruct (clamp_sign (spec.diff_pct a b p / 0.01)) as [Cpos Cneg].
  split; [|split].
  - intros Hab. specialize (Cpos (Hpos Hab)).
    assert (Hgt : 0.5 < v).
    { rewrite Hs. unfold spec.signal.
      set (c := spec.clamp _ _ _) in *. qconst. lra. }
    split; [exact Hgt|].
    rewrite <- Hhalf. apply round_q_4_monotone. lra.
  - intros Hab. specialize (Cneg (Hneg Hab)).
    assert (Hlt : v < 0.5).
    { rewrite Hs. unfold spec.signal.
      set (c := spec.clamp _ _ _) in *. qconst. lra. }
    split; [exact Hlt|].
    rewrite <- Hhalf. apply round_q_4_monotone. lra.
  - intros Hd.
    pose proof (clamp_monotone _ _ (scaled_spread_monotone a b a' b' p Hp Hd))
      as Hc.
    assert (Hle : v <= v').
    { rewrite Hs, Hs'. unfold spec.signal.
      set (c := spec.clamp (spec.diff_pct a b p / 0.01) _ _) in *.
      set (c' := spec.clamp (spec.diff_pct a' b' p / 0.01) _ _) in *.
      qconst. lra. }
    split; [exact Hle | apply round_q_4_monotone, Hle].
Qed.

Lemma signal_follows_crossover_witness :
  exists v v',
    signal_value (Finite 100.5) (Finite 100.2) 110 = Finite v
    /\ signal_value (Finite 101) (Finite 100.4) 110 = Finite v'
    /\ (100.2 < 100.5 -> 0.5 < v /\ 0.5 <= round_q v 4)
    /\ (100.5 < 100.2 -> v < 0.5 /\ round_q v 4 <= 0.5)
    /\ (100.5 - 100.2 <= 101 - 100.4 ->
        v <= v' /\ round_q v 4 <= round_q v' 4).
Proof.
  apply (signal_follows_crossover 100.5 100.2 101 100.4 110).
  vm_compute. reflexivity.
Defined.

(** ** A whole brain update *)

Lemma update_brain_db (w : world) : db (snd (update_brain w)) = db w.
Proof.
  assert (Hrun : update_brain w
                 = (generate_signals "AAPL" ;;;
                    (generate_signals "BTC" ;;; ret tt))
                     (printed [Brain_Update_Running] w))
    by reflexivity.
  rewrite Hrun. unfold bind.
  pose proof (generate_signals_db "AAPL" (printed [Brain_Update_Running] w))
    as H1.
  destruct (generate_signals "AAPL" _) as [[[]|e] w1]; cbn [snd] in H1.
  - pose proof (generate_signals_db "BTC" w1) as H2.
    destruct (generate_signals "BTC" w1) as [[[]|e] w2]; cbn [snd ret] in *;
      rewrite H2, H1; reflexivity.
  - cbn [snd]. rewrite H1. reflexivity.
Qed.

(** X5.  A brain update never changes the database, whatever the store
    holds and whichever connections fail.  With at least 50 AAPL price
    points and a successful fetch it raises [KeyError] out of
    [update_brain] after the banner and one connection, before BTC is
    looked at; and it returns normally only when both assets were
    skipped for lack of data. *)
Theorem update_brain_writes_nothing (w : world) :
  db (snd (update_brain w)) = db w
  /\ (fault_at 0 w = false ->
      (SMA_LONG_PERIOD <= List.length (rows_of "AAPL" (db w)))%nat ->
      fst (update_brain w) = Raise KeyError
      /\ faults (snd (update_brain w)) = tl (faults w)
      /\ stdout (snd (update_brain w)) = stdout w ++ [Brain_Update_Running])
  /\ (fst (update_brain w) = Return tt ->
      (List.length (rows_of "AAPL" (db w)) < SMA_LONG_PERIOD)%nat
      /\ (List.length (rows_of "BTC" (db w)) < SMA_LONG_PERIOD)%nat).
Proof.
  set (w0 := printed [Brain_Update_Running] w).
  assert (Hrun : update_brain w
                 = (generate_signals "AAPL" ;;;
                    (generate_signals "BTC" ;;; ret tt)) w0)
    by reflexivity.
  split; [|split].
  - apply update_brain_db.
  - intros H0 Hlen. rewrite Hrun. unfold bind.
    rewrite (generate_signals_KeyError "AAPL" w0) by assumption.
    repeat split.
  - intros Hret. rewrite Hrun in Hret. unfold bind in Hret.
    destruct (fault_at 0 w0) eqn:H0.
    { rewrite generate_signals_fetch_fault in Hret by exact H0.
      discriminate. }
    destruct (Nat.lt_ge_cases (List.length (rows_of "AAPL" (db w0)))
                SMA_LONG_PERIOD) as [Ha|Ha].
    2:{ rewrite generate_signals_KeyError in Hret by assumption.
        discriminate. }
    split; [exact Ha|].
    rewrite generate_signals_skip in Hret by assumption.
    match type of Hret with
    | context [generate_signals "BTC" ?w] => set (w1 := w) in *
    end.
    destruct (fault_at 0 w1) eqn:H1.
    { rewrite generate_signals_fetch_fault in Hret by exact H1.
      discriminate. }
    destruct (Nat.lt_ge_cases (List.length (rows_of "BTC" (db w1)))
                SMA_LONG_PERIOD) as [Hb|Hb].
    + exact Hb.
    + rewrite generate_signals_KeyError in Hret by assumption.
      discriminate.
Qed.

Lemma update_brain_writes_nothing_witness :
  let w := example.rising_world in
  fst (update_brain w) = Raise KeyError
  /\ faults (snd (update_brain w)) = tl (faults w)
  /\ stdout (snd (update_brain w)) = stdout w ++ [Brain_Update_Running].
Proof.
  apply (proj1 (proj2 (update_brain_writes_nothing example.rising_world))).
  - reflexivity.
  - vm_compute. repeat constructor.
Defined.

(** X6.  The brain update has no handler of its own: a storage fault on
    the AAPL price fetch raises out of [update_brain] before BTC is looked
    at (no second connection is opened, nothing is written); a fault on the
    BTC fetch raises as well, after AAPL has been dealt with. *)
Theorem update_brain_fetch_fault_aborts (w : world) :
  (fault_at 0 w = true ->
   fst (update_brain w) = Raise OperationalError
   /\ db (snd (update_brain w)) = db w
   /\ faults (snd (update_brain w)) = tl (faults w)
   /\ stdout (snd (update_brain w))
      = stdout w ++ [Brain_Update_Running; Database_Error OperationalError])
  /\ (forall w1,
         generate_signals "AAPL" (printed [Brain_Update_Running] w)
         = (Return tt, w1) ->
         fault_at 0 w1 = true ->
         fst (update_brain w) = Raise OperationalError
         /\ db (snd (update_brain w)) = db w1).
Proof.
  assert (Hrun : update_brain w
                 = (generate_signals "AAPL" ;;;
                    (generate_signals "BTC" ;;; ret tt))
                     (printed [Brain_Update_Running] w))
    by reflexivity.
  split.
  - intros H0. rewrite Hrun. unfold bind.
    rewrite generate_signals_fetch_fault by exact H0.
    cbn [fst snd db faults stdout printed set_stdout next_conn set_faults].
    rewrite <- app_assoc. repeat split.
  - intros w1 Hrun1 H1. rewrite Hrun. unfold bind. rewrite Hrun1.
    rewrite generate_signals_fetch_fault by exact H1.
    split; reflexivity.
Qed.

Lemma update_brain_fetch_fault_aborts_witness :
  let w := example.rising_world in
  let w' := set_faults [true] w in
  fst (update_brain w') = Raise OperationalError
  /\ db (snd (update_brain w')) = db w'
  /\ faults (snd (update_brain w')) = tl (faults w')
  /\ stdout (snd (update_brain w'))
     = stdout w' ++ [Brain_Update_Running; Database_Error OperationalError].
Proof.
  apply (proj1 (update_brain_fetch_fault_aborts
                  (set_faults [true] example.rising_world))).
  reflexivity.
Defined.

(** ** More on the Decision Engines *)

Lemma faults_nil_fault_at (n : nat) (w : world) :
  faults w = [] -> fault_at n w = false.
Proof. unfold fault_at. intros ->. destruct n; reflexivity. Qed.

(** X7.  Unlike the signal lookup, the price fetch of a Decision Engine
    is not guarded: a storage fault on it raises out of the run (of either
    engine, whatever its constants), after one connection and with nothing
    written. *)
Theorem engine_price_fetch_fault_propagates (c : engine.config) (w : world) :
  fault_at 0 w = true ->
  fst (engine.run c w) = Raise OperationalError
  /\ db (snd (engine.run c w)) = db w
  /\ faults (snd (engine.run c w)) = tl (faults w)
  /\ stdout (snd (engine.run c w))
     = stdout w ++ [Engine_Running (engine.ASSET c) (clock w);
                    Database_Error OperationalError].
Proof.
  intros H0. rewrite run_fetch_fault by exact H0.
  cbn [fst snd db faults stdout printed set_stdout next_conn set_faults started].
  rewrite <- app_assoc. repeat split.
Qed.

Lemma engine_price_fetch_fault_propagates_witness :
  let w := example.threshold_world [true] in
  fst (stock_engine.run_stock_engine w) = Raise OperationalError
  /\ db (snd (stock_engine.run_stock_engine w)) = db w
  /\ faults (snd (stock_engine.run_stock_engine w)) = tl (faults w)
  /\ stdout (snd (stock_engine.run_stock_engine w))
     = stdout w ++ [Engine_Running "AAPL" (clock w);
                    Database_Error OperationalError].
Proof.
  apply (engine_price_fetch_fault_propagates stock_engine.config
           (example.threshold_world [true])).
  reflexivity.
Defined.

(** X8.  When the trade insert of a BUY or SELL decision is hit by a
    storage fault, the run still returns normally and prints the
    "trade executed" line although no trade row was written. *)
Theorem failed_trade_is_reported_as_executed
        (c : engine.config) (w : world) (r : price_row)
        (rest : list price_row) :
  let s := latest_signal_of (engine.ASSET c) w in
  fault_at 0 w = false ->
  select_price_data (engine.ASSET c) 1 (db w) = r :: rest ->
  ge s (engine.BUY_THRESHOLD c) = true
  \/ le s (engine.SELL_THRESHOLD c) = true ->
  fault_at 2 w = true ->
  fst (engine.run c w) = Return tt
  /\ db (snd (engine.run c w)) = db w
  /\ exists earlier,
       stdout (snd (engine.run c w))
       = earlier
           ++ [Database_Error OperationalError;
               Error_inserting_trade_action OperationalError;
               TRADE_EXECUTED
                 (if ge s (engine.BUY_THRESHOLD c) then BUY else SELL)
                 (engine.TRADE_QUANTITY c) (engine.ASSET c)
                 (round_q (p_price r) 2) (round s 4)].
Proof.
  intros s H0 Hsel Hdec H2.
  rewrite (run_with_price c w r rest H0 Hsel). unfold bind. fold s.
  destruct (ge s (engine.BUY_THRESHOLD c)) eqn:Hge.
  - rewrite decision_buy by exact Hge.
    rewrite execute_fault
      by (try discriminate; rewrite fault_at_decision; exact H2).
    cbn [fst snd db stdout printed set_stdout next_conn set_faults].
    rewrite db_at_decision. split; [reflexivity|]. split; [reflexivity|].
    eexists. reflexivity.
  - destruct Hdec as [Hdec|Hle]; [discriminate|].
    rewrite decision_sell by assumption.
    rewrite execute_fault
      by (try discriminate; rewrite fault_at_decision; exact H2).
    cbn [fst snd db stdout printed set_stdout next_conn set_faults].
    rewrite db_at_decision. split; [reflexivity|]. split; [reflexivity|].
    eexists. reflexivity.
Qed.

Lemma failed_trade_is_reported_as_executed_witness :
  let w := example.threshold_world [false; false; true] in
  fst (stock_engine.run_stock_engine w) = Return tt
  /\ db (snd (stock_engine.run_stock_engine w)) = db w
  /\ exists earlier,
       stdout (snd (stock_engine.run_stock_engine w))
       = earlier
           ++ [Database_Error OperationalError;
               Error_inserting_trade_action OperationalError;
               TRADE_EXECUTED BUY 10 "AAPL" (round_q 120 2)
                 (round (latest_signal_of "AAPL" w) 4)].
Proof.
  apply (failed_trade_is_reported_as_executed stock_engine.config
           (example.threshold_world [false; false; true])
           example.aapl_row []).
  - reflexivity.
  - reflexivity.
  - left. reflexivity.
  - reflexivity.
Defined.

(** X9.  A run is not idempotent: two runs in a row on the same price
    and signal, with no storage fault, write two trade rows that differ in
    their id only. *)
Theorem two_runs_write_two_rows
        (c : engine.config) (w : world) (r : price_row)
        (rest : list price_row) :
  faults w = [] ->
  select_price_data (engine.ASSET c) 1 (db w) = r :: rest ->
  ge (latest_signal_of (engine.ASSET c) w) (engine.BUY_THRESHOLD c) = true ->
  trade_history (db (snd ((engine.run c ;;; engine.run c) w)))
  = trade_history (db w)
      ++ [mk_trade_row (trade_history_seq (db w) + 1) (engine.ASSET c)
            (clock w) BUY (engine.TRADE_QUANTITY c) (p_price r);
          mk_trade_row (trade_history_seq (db w) + 1 + 1) (engine.ASSET c)
            (clock w) BUY (engine.TRADE_QUANTITY c) (p_price r)].
Proof.
  intros Hf Hsel Hge. unfold bind at 1.
  rewrite (run_buy c w r rest)
    by (try assumption; apply faults_nil_fault_at, Hf).
  set (w1 := printed _ _).
  assert (Hf1 : faults w1 = []).
  { unfold w1, at_decision.
    rewrite (faults_nil_fault_at 1 w Hf).
    cbn [faults printed set_stdout set_db next_conn set_faults started].
    rewrite Hf. reflexivity. }
  assert (Hdb1 : db w1
                 = insert_into_trade_history (engine.ASSET c) (clock w) BUY
                     (engine.TRADE_QUANTITY c) (p_price r) (db w))
    by reflexivity.
  assert (Hclock : clock w1 = clock w).
  { unfold w1, at_decision. destruct (fault_at 1 w); reflexivity. }
  assert (Hsel1 : select_price_data (engine.ASSET c) 1 (db w1) = r :: rest)
    by (rewrite Hdb1; exact Hsel).
  assert (Hge1 : ge (latest_signal_of (engine.ASSET c) w1)
                    (engine.BUY_THRESHOLD c) = true).
  { unfold latest_signal_of in *.
    rewrite (faults_nil_fault_at 1 w1 Hf1).
    rewrite (faults_nil_fault_at 1 w Hf) in Hge.
    rewrite Hdb1. exact Hge. }
  rewrite (run_buy c w1 r rest)
    by (try assumption; apply faults_nil_fault_at, Hf1).
  cbn [snd db printed set_stdout set_db].
  rewrite Hdb1, Hclock. unfold insert_into_trade_history.
  cbn [trade_history trade_history_seq].
  rewrite <- app_assoc. reflexivity.
Qed.

Lemma two_runs_write_two_rows_witness :
  let w := example.threshold_world [] in
  trade_history
    (db (snd ((stock_engine.run_stock_engine ;;;
               stock_engine.run_stock_engine) w)))
  = trade_history (db w)
      ++ [mk_trade_row (trade_history_seq (db w) + 1) "AAPL"
            (clock w) BUY 10 120;
          mk_trade_row (trade_history_seq (db w) + 1 + 1) "AAPL"
            (clock w) BUY 10 120].
Proof.
  apply (two_runs_write_two_rows stock_engine.config
           (example.threshold_world []) example.aapl_row []);
    reflexivity.
Defined.

(** ** From a stored signal to the Decision Engines *)

Lemma hd_error_map {A B} (f : A -> B) (l : list A) :
  hd_error (map f l) = option_map f (hd_error l).
Proof. destruct l; reflexivity. Qed.

(** A signal row that is strictly newer than the stored rows of its asset
    is the one the lookup returns. *)
Lemma select_latest_signal_appended (row : signal_row) (d : database) :
  (forall r, In r (signals d) -> s_asset r = s_asset row ->
             (s_timestamp r < s_timestamp row)%Z) ->
  select_latest_signal (s_asset row) (append_signal row d)
  = Some (s_signal_value row).
Proof.
  intros Hnew. unfold select_latest_signal. rewrite hd_error_map.
  rewrite (sort_strictly_newest_first s_timestamp _ row); [reflexivity| |].
  - apply filter_In. split.
    + unfold append_signal. cbn [signals]. apply in_or_app. right. left.
      reflexivity.
    + apply String.eqb_refl.
  - intros y Hy. apply filter_In in Hy. destruct Hy as [Hin Hasset].
    unfold append_signal in Hin. cbn [signals] in Hin.
    apply in_app_or in Hin. destruct Hin as [Hin|[<-|[]]]; [|left; reflexivity].
    right. apply Hnew; [exact Hin|]. apply String.eqb_eq, Hasset.
Qed.

(** X10.  Round trip of a signal: a finite value stored by
    [insert_signal] under a timestamp that fits a signed 64-bit integer
    and is newer than every stored signal of the asset is exactly what the
    signal lookup of that asset's Decision Engine returns next (no storage
    fault on either connection). *)
Theorem signal_round_trip
        (c : engine.config) (t : Z) (q : Q) (a b : option float64)
        (w : world) :
  in_int64 t ->
  fault_at 0 w = false -> fault_at 1 w = false ->
  (forall r, In r (signals (db w)) -> s_asset r = engine.ASSET c ->
             (s_timestamp r < t)%Z) ->
  fst ((insert_signal (engine.ASSET c) t (Finite q) a b ;;;
        engine.fetch_signal c) w)
  = Return (Finite q).
Proof.
  intros _ H0 H1 Hold. unfold bind.
  rewrite insert_signal_ok by (assumption || reflexivity).
  rewrite fetch_signal_ok
    by (rewrite fault_at_set_db, fault_at_next; exact H1).
  cbn [fst db set_db].
  set (row := mk_signal_row (signals_seq (db w) + 1) (engine.ASSET c) t
                (Finite q) (bind_nullable a) (bind_nullable b)).
  change (mk_database _ _ _ _ _ _) with (append_signal row (db w)).
  change (engine.ASSET c) with (s_asset row).
  rewrite select_latest_signal_appended; [reflexivity|].
  intros r Hin Hasset. apply Hold; assumption.
Qed.

Lemma signal_round_trip_witness :
  fst ((insert_signal "AAPL" 1700000100 (Finite 0.6364) None None ;;;
        engine.fetch_signal stock_engine.config)
         (example.threshold_world []))
  = Return (Finite 0.6364).
Proof.
  apply (signal_round_trip stock_engine.config 1700000100 0.6364 None None
           (example.threshold_world [])).
  - unfold in_int64. lia.
  - reflexivity.
  - reflexivity.
  - intros r Hin Hasset. vm_compute in Hin.
    destruct Hin as [<-|[<-|[]]]; [vm_compute; reflexivity|discriminate].
Defined.

(** ** The dashboard summary *)

Lemma get_dashboard_summary_ok (w : world) :
  fault_at 0 w = false ->
  get_dashboard_summary w
  = (Return [("AAPL"%string, summary_of "AAPL" (db w));
             ("BTC"%string, summary_of "BTC" (db w))],
     next_conn w).
Proof.
  intros H. unfold get_dashboard_summary.
  erewrite get_db_connection_commit by (eassumption || reflexivity).
  rewrite set_db_next_conn. reflexivity.
Qed.

Lemma get_dashboard_summary_fault (w : world) :
  fault_at 0 w = true ->
  get_dashboard_summary w
  = (Raise OperationalError,
     printed [Database_Error OperationalError] (next_conn w)).
Proof. intros H. apply get_db_connection_fault, H. Qed.

Lemma summary_signal (asset : string) (d : database) :
  sum_signal (summary_of asset d)
  = match select_latest_signal asset d with
    | Some v => v
    | None => Finite 0.5
    end.
Proof.
  unfold summary_of, select_latest_signal, select_latest_signal_row.
  cbn [sum_signal]. rewrite hd_error_map.
  destruct (hd_error _); reflexivity.
Qed.

Lemma summary_price (asset : string) (d : database) :
  match select_price_data asset 1 d with
  | r :: _ => sum_price (summary_of asset d) = p_price r
              /\ sum_timestamp (summary_of asset d) = p_timestamp r
  | [] => sum_price (summary_of asset d) = 0.0
          /\ sum_timestamp (summary_of asset d) = 0%Z
  end.
Proof.
  unfold summary_of, select_price_data, select_latest_price.
  cbn [sum_price sum_timestamp].
  destruct (sort _ _) as [|r l]; simpl; split; reflexivity.
Qed.

(** X11.  The dashboard shows what the engines act on: a summary query
    that meets no storage fault changes nothing and returns one entry for
    AAPL and one for BTC, whose signal is the value the signal lookup of
    the asset's Decision Engine returns on the same database and whose
    price and timestamp are those of the row the engine's price fetch
    returns (0.0 and 0 when there is none). *)
Theorem dashboard_shows_what_engines_use (w : world) :
  fault_at 0 w = false ->
  exists aapl btc,
    fst (get_dashboard_summary w)
    = Return [("AAPL"%string, aapl); ("BTC"%string, btc)]
    /\ db (snd (get_dashboard_summary w)) = db w
    /\ fst (engine.fetch_signal stock_engine.config w)
       = Return (sum_signal aapl)
    /\ fst (engine.fetch_signal crypto_engine.config w)
       = Return (sum_signal btc)
    /\ match fst (fetch_latest_data "AAPL" 1 w) with
       | Return (r :: _) =>
           sum_price aapl = p_price r /\ sum_timestamp aapl = p_timestamp r
       | Return [] => sum_price aapl = 0.0 /\ sum_timestamp aapl = 0%Z
       | Raise _ => False
       end
    /\ match fst (fetch_latest_data "BTC" 1 w) with
       | Return (r :: _) =>
           sum_price btc = p_price r /\ sum_timestamp btc = p_timestamp r
       | Return [] => sum_price btc = 0.0 /\ sum_timestamp btc = 0%Z
       | Raise _ => False
       end.
Proof.
  intros H0.
  exists (summary_of "AAPL" (db w)), (summary_of "BTC" (db w)).
  rewrite get_dashboard_summary_ok by exact H0.
  rewrite !fetch_signal_ok by exact H0.
  rewrite !fetch_latest_data_ok by exact H0.
  cbn [fst snd]. rewrite !summary_signal.
  repeat split; try reflexivity.
  - apply (summary_price "AAPL" (db w)).
  - apply (summary_price "BTC" (db w)).
Qed.

Lemma dashboard_shows_what_engines_use_witness :
  let w := example.threshold_world [] in
  exists aapl btc,
    fst (get_dashboard_summary w)
    = Return [("AAPL"%string, aapl); ("BTC"%string, btc)]
    /\ db (snd (get_dashboard_summary w)) = db w
    /\ fst (engine.fetch_signal stock_engine.config w)
       = Return (sum_signal aapl)
    /\ fst (engine.fetch_signal crypto_engine.config w)
       = Return (sum_signal btc)
    /\ match fst (fetch_latest_data "AAPL" 1 w) with
       | Return (r :: _) =>
           sum_price aapl = p_price r /\ sum_timestamp aapl = p_timestamp r
       | Return [] => sum_price aapl = 0.0 /\ sum_timestamp aapl = 0%Z
       | Raise _ => False
       end
    /\ match fst (fetch_latest_data "BTC" 1 w) with
       | Return (r :: _) =>
           sum_price btc = p_price r /\ sum_timestamp btc = p_timestamp r
       | Return [] => sum_price btc = 0.0 /\ sum_timestamp btc = 0%Z
       | Raise _ => False
       end.
Proof.
  apply (dashboard_shows_what_engines_use (example.threshold_world [])).
  reflexivity.
Defined.

Lemma firstn_StronglySorted {A} (R : A -> A -> Prop) (n : nat) (l : list A) :
  StronglySorted R l -> StronglySorted R (firstn n l).
Proof.
  intros Hs. revert n. induction Hs as [|x l Hs IH Hall]; intros n.
  - rewrite firstn_nil. constructor.
  - destruct n as [|n]; simpl; constructor; [apply IH|].
    rewrite Forall_forall in *. intros y Hy.
    apply Hall. apply (In_firstn_list n l y Hy).
Qed.

Lemma map_StronglySorted {A B} (f : A -> B) (R : B -> B -> Prop) (l : list A) :
  StronglySorted (fun a b => R (f a) (f b)) l -> StronglySorted R (map f l).
Proof.
  induction 1 as [|x l Hs IH Hall]; simpl; constructor; [exact IH|].
  rewrite Forall_forall in *. intros y Hy.
  apply in_map_iff in Hy. destruct Hy as [z [<- Hz]]. apply Hall, Hz.
Qed.

(** X12.  The trades of a summary entry are at most five, each one a
    stored trade of that asset with its timestamp, action, quantity and
    price, listed newest first. *)
Theorem dashboard_trades_are_the_latest (asset : string) (d : database) :
  let shown := sum_trades (summary_of asset d) in
  List.length shown
  = Nat.min 5 (List.length
                 (filter (fun t => String.eqb (t_asset t) asset)
                    (trade_history d)))
  /\ (List.length shown <= 5)%nat
  /\ StronglySorted (fun a b => (td_timestamp b <= td_timestamp a)%Z) shown
  /\ (forall x, In x shown ->
                exists t, In t (trade_history d) /\ t_asset t = asset
                          /\ x = mk_trade_dict (t_timestamp t) (t_action t)
                                   (t_quantity t) (t_price t)).
Proof.
  cbv zeta. unfold summary_of. cbn [sum_trades]. unfold select_last_trades.
  rewrite length_map, length_firstn, sort_length.
  split; [reflexivity|]. split; [apply Nat.le_min_l|]. split.
  - apply map_StronglySorted. cbn [td_timestamp].
    apply firstn_StronglySorted. apply (sort_newest_first t_timestamp).
  - intros x Hx. apply in_map_iff in Hx. destruct Hx as [t [<- Ht]].
    apply In_firstn_list, sort_In, filter_In in Ht.
    destruct Ht as [Hin Heq]. apply String.eqb_eq in Heq.
    exists t. repeat split; assumption.
Qed.

(** A trade row that is strictly newer than the stored trades of its
    asset heads the list the dashboard shows. *)
Lemma select_last_trades_appended
      (asset : string) (t : Z) (a : action) (quantity price : Q)
      (d : database) :
  (forall r, In r (trade_history d) -> t_asset r = asset ->
             (t_timestamp r < t)%Z) ->
  hd_error (select_last_trades asset
              (insert_into_trade_history asset t a quantity price d))
  = Some (mk_trade_row (trade_history_seq d + 1) asset t a quantity price).
Proof.
  intros Hnew. unfold select_last_trades.
  set (row := mk_trade_row (trade_history_seq d + 1) asset t a quantity price).
  assert (Hhd : hd_error
                  (sort (fun x y => (t_timestamp y <=? t_timestamp x)%Z)
                     (filter (fun r => String.eqb (t_asset r) asset)
                        (trade_history
                           (insert_into_trade_history asset t a quantity
                              price d))))
                = Some row).
  { apply (sort_strictly_newest_first t_timestamp).
    - apply filter_In. split.
      + unfold insert_into_trade_history. cbn [trade_history].
        apply in_or_app. right. left. reflexivity.
      + apply String.eqb_refl.
    - intros y Hy. apply filter_In in Hy. destruct Hy as [Hin Hasset].
      unfold insert_into_trade_history in Hin. cbn [trade_history] in Hin.
      apply in_app_or in Hin.
      destruct Hin as [Hin|[<-|[]]]; [|left; reflexivity].
      right. apply Hnew; [exact Hin|]. apply String.eqb_eq, Hasset. }
  destruct (sort _ _) as [|h l]; [discriminate|]. exact Hhd.
Qed.

(** X13.  From a decision to the dashboard: after a run that decides BUY
    with no storage fault, at a clock value above the timestamps of the
    asset's stored trades, the first trade the summary shows for the asset
    is that BUY, with the configured quantity and the fetched price. *)
Theorem dashboard_shows_new_trade_first
        (c : engine.config) (w : world) (r : price_row)
        (rest : list price_row) :
  fault_at 0 w = false -> fault_at 2 w = false ->
  select_price_data (engine.ASSET c) 1 (db w) = r :: rest ->
  ge (latest_signal_of (engine.ASSET c) w) (engine.BUY_THRESHOLD c) = true ->
  (forall t, In t (trade_history (db w)) -> t_asset t = engine.ASSET c ->
             (t_timestamp t < clock w)%Z) ->
  hd_error (sum_trades (summary_of (engine.ASSET c)
                          (db (snd (engine.run c w)))))
  = Some (mk_trade_dict (clock w) BUY (engine.TRADE_QUANTITY c) (p_price r)).
Proof.
  intros H0 H2 Hsel Hge Hold.
  rewrite (run_buy c w r rest) by assumption.
  cbn [snd db printed set_stdout set_db].
  unfold summary_of. cbn [sum_trades]. rewrite hd_error_map.
  rewrite select_last_trades_appended by exact Hold.
  reflexivity.
Qed.

Lemma dashboard_shows_new_trade_first_witness :
  let w := example.threshold_world [] in
  hd_error (sum_trades (summary_of "AAPL"
                          (db (snd (stock_engine.run_stock_engine w)))))
  = Some (mk_trade_dict (clock w) BUY 10 120).
Proof.
  apply (dashboard_shows_new_trade_first stock_engine.config
           (example.threshold_world []) example.aapl_row []).
  - reflexivity.
  - reflexivity.
  - reflexivity.
  - reflexivity.
  - intros t Hin. contradiction.
Defined.

(** X14.  The dashboard view never writes and lets no error of the
    summary query escape: it answers with the fallback page (status 500)
    exactly when the query is hit by a storage fault, and otherwise hands
    the summary of both assets to the template. *)
Theorem dashboard_falls_back_on_fault (w : world) :
  db (snd (app.dashboard w)) = db w
  /\ (fault_at 0 w = true ->
      fst (app.dashboard w) = Return (app.Error_500 OperationalError))
  /\ (fault_at 0 w = false ->
      fst (app.dashboard w)
      = Return (app.Rendered [("AAPL"%string, summary_of "AAPL" (db w));
                              ("BTC"%string, summary_of "BTC" (db w))])).
Proof.
  unfold app.dashboard, try_except, bind.
  destruct (fault_at 0 w) eqn:H0.
  - rewrite get_dashboard_summary_fault by exact H0.
    repeat split; intros; try discriminate; reflexivity.
  - rewrite get_dashboard_summary_ok by exact H0.
    repeat split; intros; try discriminate; reflexivity.
Qed.

Lemma dashboard_falls_back_on_fault_witness :
  fst (app.dashboard (example.threshold_world [true]))
  = Return (app.Error_500 OperationalError).
Proof.
  apply (proj1 (proj2 (dashboard_falls_back_on_fault (example.threshold_world [true])))).
  reflexivity.
Defined.

(** X15.  The badge of the dashboard uses the equity thresholds for
    every asset.  It therefore always agrees with the decision of the
    stock engine, but for BTC a signal in [[0.75, 0.80)] is shown as
    "signal-buy" and one in [(0.20, 0.25]] as "signal-sell" while the
    crypto engine decides HOLD. *)
Theorem badge_uses_equity_thresholds (q : Q) (w0 : world) :
  (app.signal_class (Finite q) = "signal-buy"%string
   <-> fst (engine.decision stock_engine.config (Finite q) w0) = Return BUY)
  /\ (app.signal_class (Finite q) = "signal-sell"%string
      <-> fst (engine.decision stock_engine.config (Finite q) w0)
          = Return SELL)
  /\ (app.signal_class (Finite q) = "signal-hold"%string
      <-> fst (engine.decision stock_engine.config (Finite q) w0)
          = Return HOLD)
  /\ (0.75 <= q -> q < 0.80 ->
      app.signal_class (Finite q) = "signal-buy"%string
      /\ fst (engine.decision crypto_engine.config (Finite q) w0)
         = Return HOLD)
  /\ (0.20 < q -> q <= 0.25 ->
      app.signal_class (Finite q) = "signal-sell"%string
      /\ fst (engine.decision crypto_engine.config (Finite q) w0)
         = Return HOLD).
Proof.
  unfold app.signal_class, engine.decision.
  cbn [engine.BUY_THRESHOLD engine.SELL_THRESHOLD stock_engine.config
       crypto_engine.config].
  unfold stock_engine.BUY_THRESHOLD, stock_engine.SELL_THRESHOLD,
    crypto_engine.BUY_THRESHOLD, crypto_engine.SELL_THRESHOLD.
  split; [|split; [|split; [|split]]].
  - destruct (ge (Finite q) 0.75); [|destruct (le (Finite q) 0.25)];
      cbn; split; intros H; try reflexivity; discriminate.
  - destruct (ge (Finite q) 0.75); [|destruct (le (Finite q) 0.25)];
      cbn; split; intros H; try reflexivity; discriminate.
  - destruct (ge (Finite q) 0.75); [|destruct (le (Finite q) 0.25)];
      cbn; split; intros H; try reflexivity; discriminate.
  - intros Hlo Hhi.
    rewrite (proj2 (ge_Finite q 0.75) Hlo).
    rewrite (proj2 (ge_Finite_false q 0.80) Hhi).
    replace (le (Finite q) 0.20) with false
      by (symmetry; apply le_Finite_false; lra).
    split; reflexivity.
  - intros Hlo Hhi.
    replace (ge (Finite q) 0.75) with false
      by (symmetry; apply ge_Finite_false; lra).
    rewrite (proj2 (le_Finite q 0.25) Hhi).
    replace (ge (Finite q) 0.80) with false
      by (symmetry; apply ge_Finite_false; lra).
    rewrite (proj2 (le_Finite_false q 0.20) Hlo).
    split; reflexivity.
Qed.

Lemma badge_uses_equity_thresholds_witness :
  app.signal_class (Finite 0.78) = "signal-buy"%string
  /\ fst (engine.decision crypto_engine.config (Finite 0.78)
            example.empty_world) = Return HOLD.
Proof.
  apply (proj1 (proj2 (proj2 (proj2
           (badge_uses_equity_thresholds 0.78 example.empty_world))))).
  - vm_compute. discriminate.
  - vm_compute. reflexivity.
Defined.

(** X16.  First start: for an asset with no price row, no signal row and
    no trade row the summary entry is price 0.0, timestamp 0 (which the
    timestamp filter shows as "N/A"), signal 0.5 (badge "signal-hold"),
    both averages 0.0 and no trades. *)
Theorem dashboard_defaults
        (strftime_localtime : Z -> string) (asset : string) (d : database) :
  rows_of asset d = [] ->
  filter (fun r => String.eqb (s_asset r) asset) (signals d) = [] ->
  filter (fun r => String.eqb (t_asset r) asset) (trade_history d) = [] ->
  summary_of asset d
  = mk_asset_summary 0.0 0 (Finite 0.5)
      (Some (Finite 0.0)) (Some (Finite 0.0)) []
  /\ app.format_timestamp strftime_localtime
       (sum_timestamp (summary_of asset d)) = "N/A"%string
  /\ app.signal_class (sum_signal (summary_of asset d))
     = "signal-hold"%string.
Proof.
  intros Hp Hs Ht.
  assert (E : summary_of asset d
              = mk_asset_summary 0.0 0 (Finite 0.5)
                  (Some (Finite 0.0)) (Some (Finite 0.0)) []).
  { unfold summary_of, select_latest_price, select_latest_signal_row,
      select_last_trades.
    fold (rows_of asset d). rewrite Hp, Hs, Ht. reflexivity. }
  rewrite E. repeat split.
Qed.

Lemma dashboard_defaults_witness :
  summary_of "AAPL" empty_database
  = mk_asset_summary 0.0 0 (Finite 0.5)
      (Some (Finite 0.0)) (Some (Finite 0.0)) []
  /\ app.format_timestamp (fun _ => "2023-11-14 22:13:20"%string)
       (sum_timestamp (summary_of "AAPL" empty_database)) = "N/A"%string
  /\ app.signal_class (sum_signal (summary_of "AAPL" empty_database))
     = "signal-hold"%string.
Proof.
  apply (dashboard_defaults (fun _ => "2023-11-14 22:13:20"%string)
           "AAPL" empty_database); reflexivity.
Defined.

(** ** The Feeder *)

Lemma dict_get_set_same (d : list (string * Q)) (k : string) (v : Q) :
  data_feeder.dict_get (data_feeder.dict_set d k v) k = Return v.
Proof.
  induction d as [|[k' v'] d IH]; simpl.
  - rewrite String.eqb_refl. reflexivity.
  - destruct (String.eqb k' k) eqn:E; simpl.
    + rewrite String.eqb_refl. reflexivity.
    + rewrite E. exact IH.
Qed.

Lemma dict_get_set_other (d : list (string * Q)) (k k' : string) (v : Q) :
  k <> k' ->
  data_feeder.dict_get (data_feeder.dict_set d k v) k'
  = data_feeder.dict_get d k'.
Proof.
  intros Hne. induction d as [|[k0 v0] d IH]; simpl.
  - destruct (String.eqb k k') eqn:E; [|reflexivity].
    apply String.eqb_eq in E. contradiction.
  - destruct (String.eqb k0 k) eqn:E; simpl.
    + apply String.eqb_eq in E. subst k0.
      destruct (String.eqb k k') eqn:E'; [|reflexivity].
      apply String.eqb_eq in E'. contradiction.
    + destruct (String.eqb k0 k'); [reflexivity | exact IH].
Qed.

Lemma insert_price_data_returns (asset : string) (t : Z) (p : Q) (w : world) :
  fst (insert_price_data asset t p w) = Return tt
  /\ MOCK_PRICES (snd (insert_price_data asset t p w)) = MOCK_PRICES w
  /\ clock (snd (insert_price_data asset t p w)) = clock w.
Proof.
  destruct (fault_at 0 w) eqn:H0.
  - rewrite insert_price_data_fault by exact H0. repeat split.
  - rewrite insert_price_data_ok by exact H0. repeat split.
Qed.

(** One iteration of the Feeder's loop when the asset has a mock price. *)
Lemma feeder_iteration (u : string -> Q) (now : Z) (asset : string)
      (m : Q) (w : world) :
  data_feeder.dict_get (MOCK_PRICES w) asset = Return m ->
  let m' := m + u asset * m in
  let w1 := set_MOCK_PRICES
              (data_feeder.dict_set (MOCK_PRICES w) asset m') w in
  try_except
    (mock_price <- data_feeder.get_MOCK_PRICES asset ;;
     data_feeder.put_MOCK_PRICES asset (mock_price + u asset * mock_price) ;;;
     insert_price_data asset now
       (round_q (mock_price + u asset * mock_price) 4) ;;;
     print (SUCCESS asset (round_q (mock_price + u asset * mock_price) 2)))
    (fun e => print (ERROR_Failed_to_fetch_data asset e)) w
  = (Return tt,
     printed [SUCCESS asset (round_q m' 2)]
       (snd (insert_price_data asset now (round_q m' 4) w1))).
Proof.
  intros Hget m' w1.
  unfold try_except, bind, data_feeder.get_MOCK_PRICES,
    data_feeder.put_MOCK_PRICES.
  rewrite Hget. fold m'. fold w1.
  destruct (insert_price_data_returns asset now (round_q m' 4) w1)
    as [Hfst _].
  destruct (insert_price_data asset now (round_q m' 4) w1) as [res w2].
  cbn [fst] in Hfst. subst res. reflexivity.
Qed.

(** A whole tick when both assets have a mock price. *)
Lemma feeder_tick (u : string -> Q) (w : world) (a b : Q) :
  data_feeder.dict_get (MOCK_PRICES w) "AAPL" = Return a ->
  data_feeder.dict_get (MOCK_PRICES w) "BTC" = Return b ->
  let a' := a + u "AAPL"%string * a in
  let b' := b + u "BTC"%string * b in
  let w0 := printed [Data_Feeder_Running (clock w)] w in
  let w1 := set_MOCK_PRICES
              (data_feeder.dict_set (MOCK_PRICES w0) "AAPL" a') w0 in
  let w2 := printed [SUCCESS "AAPL" (round_q a' 2)]
              (snd (insert_price_data "AAPL" (clock w) (round_q a' 4) w1)) in
  let w3 := set_MOCK_PRICES
              (data_feeder.dict_set (MOCK_PRICES w2) "BTC" b') w2 in
  let w4 := printed [SUCCESS "BTC" (round_q b' 2)]
              (snd (insert_price_data "BTC" (clock w) (round_q b' 4) w3)) in
  data_feeder.fetch_and_store_data u w = (Return tt, w4)
  /\ MOCK_PRICES w4
     = data_feeder.dict_set
         (data_feeder.dict_set (MOCK_PRICES w) "AAPL" a') "BTC" b'.
Proof.
  intros Ha Hb a' b' w0 w1 w2 w3 w4.
  assert (Hm2 : MOCK_PRICES w2
                = data_feeder.dict_set (MOCK_PRICES w) "AAPL" a').
  { unfold w2. cbn [MOCK_PRICES printed set_stdout].
    destruct (insert_price_data_returns "AAPL" (clock w) (round_q a' 4) w1)
      as (_ & -> & _). reflexivity. }
  assert (Hb2 : data_feeder.dict_get (MOCK_PRICES w2) "BTC" = Return b).
  { rewrite Hm2, dict_get_set_other by discriminate. exact Hb. }
  split.
  - unfold data_feeder.fetch_and_store_data.
    unfold bind at 1, time_time at 1. unfold bind at 1, print at 1.
    change (set_stdout (stdout w ++ [Data_Feeder_Running (clock w)]) w)
      with w0.
    cbn [app data_feeder.STOCKS data_feeder.CRYPTOS for_each].
    unfold bind at 1.
    rewrite (feeder_iteration u (clock w) "AAPL" a w0 Ha).
    fold a'. fold w1. fold w2.
    unfold bind at 1.
    rewrite (feeder_iteration u (clock w) "BTC" b w2 Hb2).
    reflexivity.
  - unfold w4. cbn [MOCK_PRICES printed set_stdout].
    destruct (insert_price_data_returns "BTC" (clock w) (round_q b' 4) w3)
      as (_ & -> & _).
    unfold w3. cbn [MOCK_PRICES set_MOCK_PRICES]. rewrite Hm2. reflexivity.
Qed.

(** X17.  The mock prices follow a bounded random walk whether or not
    the inserts succeed: with every draw in [[-0.005, 0.005]], a tick
    moves each positive mock price by at most 0.5 percent, so it stays
    positive. *)
Theorem mock_prices_bounded_walk (u : string -> Q) (w : world) (a b : Q) :
  data_feeder.dict_get (MOCK_PRICES w) "AAPL" = Return a ->
  data_feeder.dict_get (MOCK_PRICES w) "BTC" = Return b ->
  (forall asset, -(0.005) <= u asset <= 0.005) ->
  0 < a -> 0 < b ->
  let w' := snd (data_feeder.fetch_and_store_data u w) in
  exists a' b',
    data_feeder.dict_get (MOCK_PRICES w') "AAPL" = Return a'
    /\ data_feeder.dict_get (MOCK_PRICES w') "BTC" = Return b'
    /\ 0.995 * a <= a' <= 1.005 * a
    /\ 0.995 * b <= b' <= 1.005 * b
    /\ 0 < a' /\ 0 < b'.
Proof.
  intros Ha Hb Hu Hapos Hbpos. cbv zeta.
  destruct (feeder_tick u w a b Ha Hb) as [Hrun Hmock].
  cbv zeta in Hrun, Hmock. rewrite Hrun. cbn [snd]. rewrite Hmock.
  exists (a + u "AAPL"%string * a), (b + u "BTC"%string * b).
  pose proof (Hu "AAPL"%string) as HuA. pose proof (Hu "BTC"%string) as HuB.
  set (ua := u "AAPL"%string) in *. set (ub := u "BTC"%string) in *.
  split; [rewrite dict_get_set_other by discriminate;
          apply dict_get_set_same|].
  split; [apply dict_get_set_same|].
  repeat split; nra.
Qed.

Lemma mock_prices_bounded_walk_witness :
  let w := example.threshold_world [true; true] in
  let w' := snd (data_feeder.fetch_and_store_data (fun _ => 0.001) w) in
  exists a' b',
    data_feeder.dict_get (MOCK_PRICES w') "AAPL" = Return a'
    /\ data_feeder.dict_get (MOCK_PRICES w') "BTC" = Return b'
    /\ 0.995 * 170.00 <= a' <= 1.005 * 170.00
    /\ 0.995 * 65000.00 <= b' <= 1.005 * 65000.00
    /\ 0 < a' /\ 0 < b'.
Proof.
  apply (mock_prices_bounded_walk (fun _ => 0.001)
           (example.threshold_world [true; true]) 170.00 65000.00).
  - reflexivity.
  - reflexivity.
  - intros _. split; vm_compute; discriminate.
  - vm_compute. reflexivity.
  - vm_compute. reflexivity.
Defined.

Lemma filter_filter_implied {A} (f g : A -> bool) (l : list A) :
  (forall x, f x = true -> g x = true) ->
  filter f (filter g l) = filter f l.
Proof.
  intros Himp. induction l as [|x l IH]; simpl; [reflexivity|].
  destruct (g x) eqn:G; simpl.
  - rewrite IH. reflexivity.
  - destruct (f x) eqn:F; [|exact IH].
    apply Himp in F. congruence.
Qed.

(** A price insert under another key does not touch the rows of a key. *)
Lemma rows_at_insert_other
      (asset asset' : string) (t t' : Z) (p : Q) (d : database) :
  (asset, t) <> (asset', t') ->
  rows_at asset t (insert_or_replace_price_data asset' t' p d)
  = rows_at asset t d.
Proof.
  intros Hne. unfold rows_at, insert_or_replace_price_data.
  cbn [price_data]. rewrite filter_app.
  rewrite filter_filter_implied.
  - cbn [filter].
    destruct (same_key asset t (mk_price_row (price_data_seq d + 1)
                                  asset' t' p)) eqn:E.
    + apply same_key_iff in E. exfalso. apply Hne. symmetry. exact E.
    + apply app_nil_r.
  - intros x Hx. apply same_key_iff in Hx.
    destruct (same_key asset' t' x) eqn:E; [|reflexivity].
    apply same_key_iff in E. exfalso. apply Hne. rewrite <- Hx, <- E.
    reflexivity.
Qed.

(** X18.  A Feeder tick that meets no storage fault leaves, for each of
    AAPL and BTC, exactly one row under the tick's timestamp (whatever was
    stored under it before), and the price in that row is within 0.00005
    of the new mock price. *)
Theorem feeder_stores_rounded_prices
        (u : string -> Q) (w : world) (a b : Q) :
  data_feeder.dict_get (MOCK_PRICES w) "AAPL" = Return a ->
  data_feeder.dict_get (MOCK_PRICES w) "BTC" = Return b ->
  fault_at 0 w = false -> fault_at 1 w = false ->
  let a' := a + u "AAPL"%string * a in
  let b' := b + u "BTC"%string * b in
  let w' := snd (data_feeder.fetch_and_store_data u w) in
  exists pa pb,
    rows_at "AAPL" (clock w) (db w')
    = [mk_price_row (price_data_seq (db w) + 1) "AAPL" (clock w) pa]
    /\ rows_at "BTC" (clock w) (db w')
       = [mk_price_row (price_data_seq (db w) + 1 + 1) "BTC" (clock w) pb]
    /\ -(0.00005) <= pa - a' <= 0.00005
    /\ -(0.00005) <= pb - b' <= 0.00005.
Proof.
  intros Ha Hb H0 H1 a' b' w'.
  destruct (feeder_tick u w a b Ha Hb) as [Hrun _].
  cbv zeta in Hrun. unfold w'. rewrite Hrun. cbn [snd]. clear Hrun.
  fold a'. fold b'.
  rewrite (insert_price_data_ok "AAPL") by exact H0.
  cbn [snd].
  rewrite (insert_price_data_ok "BTC")
    by (revert H1; unfold fault_at;
        cbn [faults set_MOCK_PRICES printed set_stdout set_db next_conn
             set_faults];
        destruct (faults w) as [|f0 [|f1 fs]]; auto).
  cbn [snd db printed set_stdout set_db set_MOCK_PRICES next_conn set_faults].
  exists (round_q a' 4), (round_q b' 4).
  split; [|split; [|split; apply round_q_4_error]].
  - rewrite rows_at_insert_other by discriminate.
    apply insert_or_replace_rows_at.
  - apply insert_or_replace_rows_at.
Qed.

Lemma feeder_stores_rounded_prices_witness :
  let w := example.threshold_world [] in
  let a' := 170.00 + 0.001 * 170.00 in
  let b' := 65000.00 + 0.001 * 65000.00 in
  let w' := snd (data_feeder.fetch_and_store_data (fun _ => 0.001) w) in
  exists pa pb,
    rows_at "AAPL" (clock w) (db w')
    = [mk_price_row (price_data_seq (db w) + 1) "AAPL" (clock w) pa]
    /\ rows_at "BTC" (clock w) (db w')
       = [mk_price_row (price_data_seq (db w) + 1 + 1) "BTC" (clock w) pb]
    /\ -(0.00005) <= pa - a' <= 0.00005
    /\ -(0.00005) <= pb - b' <= 0.00005.
Proof.
  apply (feeder_stores_rounded_prices (fun _ => 0.001)
           (example.threshold_world []) 170.00 65000.00); reflexivity.
Defined.

(** ** Assets do not interfere *)

Lemma rows_of_insert_other
      (asset asset' : string) (t : Z) (p : Q) (d : database) :
  asset <> asset' ->
  rows_of asset (insert_or_replace_price_data asset' t p d) = rows_of asset d.
Proof.
  intros Hne. unfold rows_of, insert_or_replace_price_data.
  cbn [price_data]. rewrite filter_app. rewrite filter_filter_implied.
  - cbn [filter p_asset].
    destruct (String.eqb asset' asset) eqn:E.
    + apply String.eqb_eq in E. congruence.
    + apply app_nil_r.
  - intros x Hx. apply String.eqb_eq in Hx. unfold same_key.
    destruct (String.eqb (p_asset x) asset') eqn:E; [|reflexivity].
    apply String.eqb_eq in E. congruence.
Qed.

(** X20.  Writes for one asset do not reach another: a price insert for
    [asset'], successful or not, changes neither the rows fetched for a
    different [asset] nor the signal computed from them; and a run of a
    Decision Engine changes neither the price table nor the signal table,
    so it cannot change what the Signal Engine or the other engine reads. *)
Theorem assets_do_not_interfere
        (asset asset' : string) (t : Z) (p : Q) (limit : nat)
        (c : engine.config) (w : world) :
  (asset <> asset' ->
   let w' := snd (insert_price_data asset' t p w) in
   select_price_data asset limit (db w') = select_price_data asset limit (db w)
   /\ signal_of asset (db w') = signal_of asset (db w)
   /\ signals (db w') = signals (db w)
   /\ trade_history (db w') = trade_history (db w))
  /\ price_data (db (snd (engine.run c w))) = price_data (db w)
  /\ signals (db (snd (engine.run c w))) = signals (db w).
Proof.
  split; [|apply run_frame].
  intros Hne. cbv zeta.
  destruct (fault_at 0 w) eqn:H0.
  - rewrite insert_price_data_fault by exact H0. repeat split.
  - rewrite insert_price_data_ok by exact H0.
    cbn [snd db set_db].
    assert (Hsel : forall n,
               select_price_data asset n
                 (insert_or_replace_price_data asset' t p (db w))
               = select_price_data asset n (db w)).
    { intros n. unfold select_price_data.
      fold (rows_of asset (insert_or_replace_price_data asset' t p (db w))).
      fold (rows_of asset (db w)).
      rewrite rows_of_insert_other by exact Hne. reflexivity. }
    split; [apply Hsel|]. split; [|split; reflexivity].
    unfold signal_of, sma_short_of, sma_long_of, latest_price_of,
      fetched_prices.
    rewrite Hsel. reflexivity.
Qed.

Lemma assets_do_not_interfere_witness :
  let w := example.rising_world in
  let w' := snd (insert_price_data "BTC" 1700000100 65000 w) in
  select_price_data "AAPL" 55 (db w') = select_price_data "AAPL" 55 (db w)
  /\ signal_of "AAPL" (db w') = signal_of "AAPL" (db w)
  /\ signals (db w') = signals (db w)
  /\ trade_history (db w') = trade_history (db w).
Proof.
  apply (proj1 (assets_do_not_interfere "AAPL" "BTC" 1700000100 65000 55
                  stock_engine.config example.rising_world)).
  discriminate.
Defined.

(** ** The Feeder's handler is never needed *)

Lemma keeps_mock_ret {A} (a : A) : keeps_mock (ret a).
Proof. intros w. reflexivity. Qed.

Lemma keeps_mock_lift {A} (r : result A) : keeps_mock (lift r).
Proof. intros w. reflexivity. Qed.

Lemma keeps_mock_print (l : line) : keeps_mock (print l).
Proof. intros w. reflexivity. Qed.

Lemma keeps_mock_time_time : keeps_mock time_time.
Proof. intros w. reflexivity. Qed.

Lemma keeps_mock_bind {A B} (m : M A) (k : A -> M B) :
  keeps_mock m -> (forall a, keeps_mock (k a)) -> keeps_mock (bind m k).
Proof.
  intros Hm Hk w. unfold bind. specialize (Hm w).
  destruct (m w) as [[a|e] w']; cbn [snd] in *;
    [rewrite Hk; exact Hm | exact Hm].
Qed.

Lemma keeps_mock_try_except {A} (m : M A) (h : exn -> M A) :
  keeps_mock m -> (forall e, keeps_mock (h e)) -> keeps_mock (try_except m h).
Proof.
  intros Hm Hh w. unfold try_except. specialize (Hm w).
  destruct (m w) as [[a|e] w']; cbn [snd] in *;
    [exact Hm | rewrite Hh; exact Hm].
Qed.

Lemma keeps_mock_for_each {A} (xs : list A) (body : A -> M unit) :
  (forall x, keeps_mock (body x)) -> keeps_mock (for_each xs body).
Proof.
  intros Hb. induction xs as [|x xs IH]; simpl.
  - apply keeps_mock_ret.
  - apply keeps_mock_bind; [apply Hb | intros _; exact IH].
Qed.

Lemma keeps_mock_get_db_connection {A}
      (body : database -> result A * database) :
  keeps_mock (get_db_connection body).
Proof.
  intros w. unfold get_db_connection.
  destruct (faults w) as [|[|] fs]; try reflexivity;
    destruct (body (db w)) as [[a|e] d']; try reflexivity;
    destruct (is_sqlite3_Error e); reflexivity.
Qed.

Ltac keeps_mock :=
  repeat first
    [ apply keeps_mock_get_db_connection
    | apply keeps_mock_ret | apply keeps_mock_lift | apply keeps_mock_print
    | apply keeps_mock_time_time
    | apply keeps_mock_bind; [|intros ?]
    | apply keeps_mock_try_except; [|intros ?]
    | apply keeps_mock_for_each; intros ?
    | match goal with
      | |- keeps_mock (if ?b then _ else _) => destruct b
      | |- keeps_mock (match ?x with _ => _ end) => destruct x
      end ].

Lemma keeps_mock_insert_price_data (asset : string) (t : Z) (p : Q) :
  keeps_mock (insert_price_data asset t p).
Proof. unfold insert_price_data. keeps_mock. Qed.

Lemma keeps_mock_generate_signals (asset : string) :
  keeps_mock (generate_signals asset).
Proof.
  unfold generate_signals, fetch_latest_data, insert_signal. keeps_mock.
Qed.

Lemma keeps_mock_update_brain : keeps_mock update_brain.
Proof.
  unfold update_brain.
  apply keeps_mock_bind; [apply keeps_mock_print | intros _].
  apply keeps_mock_for_each. exact keeps_mock_generate_signals.
Qed.

Lemma keeps_mock_engine_run (c : engine.config) : keeps_mock (engine.run c).
Proof.
  unfold engine.run, engine.fetch_signal, engine.decision,
    fetch_latest_data, insert_trade_action.
  keeps_mock.
Qed.

Lemma reachable_has_mock_prices (w : world) :
  reachable w -> has_mock_prices w.
Proof.
  induction 1 as [now fs | w now fs _ IH | w u _ IH | w _ IH | w _ IH
                 | w _ IH | w asset t p _ IH].
  - exists 170.00, 65000.00. split; reflexivity.
  - exact IH.
  - destruct IH as (a & b & Ha & Hb).
    destruct (feeder_tick u w a b Ha Hb) as [Hrun Hmock].
    cbv zeta in Hrun, Hmock. rewrite Hrun. cbn [snd].
    unfold has_mock_prices. rewrite Hmock.
    exists (a + u "AAPL"%string * a), (b + u "BTC"%string * b).
    split; [rewrite dict_get_set_other by discriminate|];
      apply dict_get_set_same.
  - unfold has_mock_prices. rewrite keeps_mock_update_brain. exact IH.
  - unfold has_mock_prices.
    rewrite (keeps_mock_engine_run stock_engine.config). exact IH.
  - unfold has_mock_prices.
    rewrite (keeps_mock_engine_run crypto_engine.config). exact IH.
  - unfold has_mock_prices. rewrite keeps_mock_insert_price_data. exact IH.
Qed.

Lemma insert_price_data_stdout (asset : string) (t : Z) (p : Q) (w : world) :
  exists l,
    stdout (snd (insert_price_data asset t p w)) = stdout w ++ l
    /\ forall a e, ~ In (ERROR_Failed_to_fetch_data a e) l.
Proof.
  destruct (fault_at 0 w) eqn:H0.
  - rewrite insert_price_data_fault by exact H0. eexists. split.
    + reflexivity.
    + intros a e [F|[F|[]]]; discriminate.
  - rewrite insert_price_data_ok by exact H0. exists []. split.
    + cbn [snd stdout set_db next_conn set_faults]. rewrite app_nil_r.
      reflexivity.
    + intros a e [].
Qed.

Lemma skipn_length_app {A} (l l' : list A) :
  skipn (List.length l) (l ++ l') = l'.
Proof. induction l as [|x l IH]; simpl; [reflexivity | exact IH]. Qed.

(** X21.  In every reachable world both assets have a mock price, so a
    Feeder tick never takes its [except] branch: it returns normally,
    prints no "failed to fetch" line and leaves both mock prices defined,
    whatever the storage faults. *)
Theorem feeder_handler_is_never_needed (u : string -> Q) (w : world) :
  reachable w ->
  let r := data_feeder.fetch_and_store_data u w in
  has_mock_prices w
  /\ fst r = Return tt
  /\ (forall asset e,
         ~ In (ERROR_Failed_to_fetch_data asset e)
              (skipn (List.length (stdout w)) (stdout (snd r))))
  /\ has_mock_prices (snd r).
Proof.
  intros Hr. cbv zeta.
  pose proof (reachable_has_mock_prices w Hr) as Hm.
  split; [exact Hm|].
  split; [|split].
  - destruct (fetch_and_store_data_never_raises u w) as [[] E]. exact E.
  - destruct Hm as (a & b & Ha & Hb).
    destruct (feeder_tick u w a b Ha Hb) as [Hrun _].
    cbv zeta in Hrun. rewrite Hrun. cbn [snd]. clear Hrun.
    set (a' := a + u "AAPL"%string * a).
    set (b' := b + u "BTC"%string * b).
    cbn [stdout printed set_stdout].
    match goal with
    | |- context [stdout (snd (insert_price_data "BTC" ?t ?p ?w0))] =>
        destruct (insert_price_data_stdout "BTC" t p w0) as (l2 & -> & Hl2)
    end.
    cbn [stdout printed set_stdout set_MOCK_PRICES].
    match goal with
    | |- context [stdout (snd (insert_price_data "AAPL" ?t ?p ?w0))] =>
        destruct (insert_price_data_stdout "AAPL" t p w0) as (l1 & -> & Hl1)
    end.
    cbn [stdout printed set_stdout set_MOCK_PRICES].
    rewrite <- !app_assoc, skipn_length_app.
    intros asset e Hin.
    apply in_app_or in Hin. destruct Hin as [[F|[]]|Hin]; [discriminate|].
    apply in_app_or in Hin. destruct Hin as [Hin|Hin]; [exact (Hl1 _ _ Hin)|].
    apply in_app_or in Hin. destruct Hin as [[F|[]]|Hin]; [discriminate|].
    apply in_app_or in Hin. destruct Hin as [Hin|[F|[]]];
      [exact (Hl2 _ _ Hin) | discriminate].
  - apply reachable_has_mock_prices. apply reach_feeder. exact Hr.
Qed.

Lemma feeder_handler_is_never_needed_witness :
  let w := mk_world empty_database 1700000100 [true]
             data_feeder.initial_MOCK_PRICES [] in
  let r := data_feeder.fetch_and_store_data (fun _ => 0.001) w in
  has_mock_prices w
  /\ fst r = Return tt
  /\ (forall asset e,
         ~ In (ERROR_Failed_to_fetch_data asset e)
              (skipn (List.length (stdout w)) (stdout (snd r))))
  /\ has_mock_prices (snd r).
Proof.
  apply (feeder_handler_is_never_needed (fun _ => 0.001)
           (mk_world empty_database 1700000100 [true]
              data_feeder.initial_MOCK_PRICES [])).
  apply reach_fresh.
Defined.

(** ** What the scheduled jobs store *)









(** ** The two engines compared *)

(** X23.  The crypto engine is the more cautious of the two: on any
    signal value on which it decides BUY (SELL), the stock engine decides
    BUY (SELL) as well, and wherever the stock engine holds, the crypto
    engine holds. *)
Theorem crypto_band_contains_equity_band (q : Q) (w0 : world) :
  (fst (engine.decision crypto_engine.config (Finite q) w0) = Return BUY ->
   fst (engine.decision stock_engine.config (Finite q) w0) = Return BUY)
  /\ (fst (engine.decision crypto_engine.config (Finite q) w0) = Return SELL ->
      fst (engine.decision stock_engine.config (Finite q) w0) = Return SELL)
  /\ (fst (engine.decision stock_engine.config (Finite q) w0) = Return HOLD ->
      fst (engine.decision crypto_engine.config (Finite q) w0) = Return HOLD).
Proof.
  destruct (decision_rule_holds stock_engine.config) as [Hs _].
  destruct (decision_rule_holds crypto_engine.config) as [Hc _].
  destruct (Hs q w0) as (Sb & Ss & Sh). destruct (Hc q w0) as (Cb & Cs & Ch).
  cbn [engine.BUY_THRESHOLD engine.SELL_THRESHOLD stock_engine.config
       crypto_engine.config] in *.
  unfold stock_engine.BUY_THRESHOLD, stock_engine.SELL_THRESHOLD,
    crypto_engine.BUY_THRESHOLD, crypto_engine.SELL_THRESHOLD in *.
  split; [|split]; intros H.
  - apply Sb. apply Cb in H. lra.
  - apply Ss. apply Cs in H. lra.
  - apply Ch. apply Sh in H. lra.
Qed.

Lemma crypto_band_contains_equity_band_witness :
  fst (engine.decision stock_engine.config (Finite 0.85) example.empty_world)
  = Return BUY.
Proof.
  apply (proj1 (crypto_band_contains_equity_band 0.85 example.empty_world)).
  reflexivity.
Defined.
